(** * The eligibility service of [src/eligibility.service.js]

    A shallow embedding of [EligibilityService] and of [isObject]
    ([src/utils.js]), followed by the properties of the evaluator.

    - [JS] gives a meaning to the part of JavaScript the service runs on:
      values, the outcome of an evaluation, property reads, [Object.entries],
      [every]/[some]/[map]/[flat]/[reduce]/[split], and the operators
      [==], [<], [>], [<=], [>=] and [includes].
    - [Utils] and [EligibilityService] follow the source function by
      function and keep its names. *)

From Stdlib Require Import List String Ascii Bool PrimFloat DecimalString.
From Stdlib Require Import FloatAxioms FloatOps SpecFloat.
Import ListNotations.
Open Scope string_scope.

(* ================================================================== *)
(** ** The JavaScript fragment *)
(* ================================================================== *)

Module JS.

#[local] Set Warnings "-register-all".

(** Values a record or a criteria document is built from.  A number is an
    IEEE 754 double, as in the language.  A string is a sequence of code
    units, one [ascii] each.  A date carries its time value, what [getTime()]
    returns.  An object is the list of its own enumerable properties, each
    key once, in the order [Object.entries] lists them; the service reads
    objects in that order and stops at the first entry that decides the
    result, so the order is part of the data. *)
Inductive value : Type :=
| VUndefined
| VNull
| VBool (b : bool)
| VNumber (n : float)
| VString (s : string)
| VDate (time : float)
| VArray (items : list value)
| VObject (props : list (string * value)).

(** Exceptions that reach the caller: the class declared by the service, and
    the native [TypeError]. *)
Inductive exn : Type :=
| InvalidCriteriaError (message : string)
| TypeError.

(** The [name] property of the thrown object: what a caller tells the kinds
    of failure apart by (with [instanceof], to the same effect). *)
Definition exn_name (e : exn) : string :=
  match e with
  | InvalidCriteriaError _ => "InvalidCriteriaError"
  | TypeError => "TypeError"
  end.

(** Outcome of an evaluation: a value, an exception, or [Unmodelled] when the
    run leaves the fragment given a meaning here.  Three things do that:
    the conversion of a string to a number or of an array to a string, the
    comparison of two objects by identity, and the value of a member
    inherited from a prototype (a read of a property of a date counts as
    one).  What is known to throw is modelled as throwing: the call of an
    inherited member that rejects a missing receiver, the conversion to a
    primitive of an object whose own [toString] is no function, the read of
    a property of [undefined] or [null].  Nothing is claimed about a run
    that ends in [Unmodelled]. *)
Inductive result (A : Type) : Type :=
| Ok (a : A)
| Throw (e : exn)
| Unmodelled.

Arguments Ok {A} a.
Arguments Throw {A} e.
Arguments Unmodelled {A}.

Definition bind {A B : Type} (m : result A) (k : A -> result B) : result B :=
  match m with
  | Ok a => k a
  | Throw e => Throw e
  | Unmodelled => Unmodelled
  end.

Declare Scope js_scope.
Delimit Scope js_scope with js.
Notation "x <- m ;; k" := (bind m (fun x => k))
  (at level 61, m at next level, right associativity) : js_scope.
Notation "' p <- m ;; k" := (bind m (fun p => k))
  (at level 61, p pattern, m at next level, right associativity) : js_scope.
Open Scope js_scope.

(** *** Classification of values *)

Definition typeof (v : value) : string :=
  match v with
  | VUndefined => "undefined"
  | VBool _ => "boolean"
  | VNumber _ => "number"
  | VString _ => "string"
  | VNull | VDate _ | VArray _ | VObject _ => "object"
  end.

Definition is_null (v : value) : bool :=
  match v with VNull => true | _ => false end.

(** [Array.isArray(v)] *)
Definition isArray (v : value) : bool :=
  match v with VArray _ => true | _ => false end.

(** The elements of an array (none for any other value). *)
Definition elements (v : value) : list value :=
  match v with VArray items => items | _ => [] end.

(** [ToBoolean]: the truth value of [v] in a condition. *)
Definition ToBoolean (v : value) : bool :=
  match v with
  | VUndefined | VNull => false
  | VBool b => b
  | VNumber n => negb (PrimFloat.eqb n 0 || PrimFloat.is_nan n)
  | VString s => negb (String.eqb s "")
  | VDate _ | VArray _ | VObject _ => true
  end.

(** *** Iteration *)

Section Iteration.
Context {A : Type}.
Variable f : A -> result bool.

(** [l.every(f)]: stops at the first element that [f] rejects. *)
Fixpoint every (l : list A) : result bool :=
  match l with
  | [] => Ok true
  | x :: rest => b <- f x ;; if b then every rest else Ok false
  end.

(** [l.some(f)]: stops at the first element that [f] accepts. *)
Fixpoint some (l : list A) : result bool :=
  match l with
  | [] => Ok false
  | x :: rest => b <- f x ;; if b then Ok true else some rest
  end.
End Iteration.

Section Map.
Context {A B : Type}.
Variable f : A -> result B.

(** [l.map(f)] *)
Fixpoint map (l : list A) : result (list B) :=
  match l with
  | [] => Ok []
  | x :: rest => y <- f x ;; ys <- map rest ;; Ok (y :: ys)
  end.
End Map.

(** [l.flat()]: the elements that are arrays are replaced by their own
    elements, one level deep. *)
Fixpoint flat (l : list value) : list value :=
  match l with
  | [] => []
  | VArray inner :: rest => inner ++ flat rest
  | v :: rest => v :: flat rest
  end.

Section Reduce.
Context {A B : Type}.
Variable callback : A -> B -> result A.

(** [l.reduce(callback, acc)] *)
Fixpoint reduce (l : list B) (acc : A) : result A :=
  match l with
  | [] => Ok acc
  | x :: rest => acc' <- callback acc x ;; reduce rest acc'
  end.
End Reduce.

(** [s.split(sep)] for a separator of one character: never empty, and
    [""] splits into [[""]]. *)
Fixpoint split (sep : ascii) (s : string) : list string :=
  match s with
  | EmptyString => [EmptyString]
  | String c rest =>
      if Ascii.eqb c sep then EmptyString :: split sep rest
      else match split sep rest with
           | [] => [String c EmptyString]
           | head :: tail => String c head :: tail
           end
  end.

(** *** Properties *)

(** The names every ordinary object inherits from [Object.prototype]. *)
Definition Object_prototype_names : list string :=
  [ "constructor"; "__defineGetter__"; "__defineSetter__"; "hasOwnProperty";
    "__lookupGetter__"; "__lookupSetter__"; "isPrototypeOf";
    "propertyIsEnumerable"; "toString"; "valueOf"; "__proto__";
    "toLocaleString" ].

Definition mem (name : string) (names : list string) : bool :=
  existsb (String.eqb name) names.

Arguments mem : simpl never.

Section Property.
Context {R : Type}.
Variable found : value -> result R.
Variable missing : result R.

(** Reads [key] in an object with own properties [props] and continues
    with [found] on its value; with [missing] when the object has no such
    property, own or inherited. *)
Fixpoint with_property (props : list (string * value)) (key : string) : result R :=
  match props with
  | [] => if mem key Object_prototype_names then Unmodelled else missing
  | (k, v) :: rest =>
      if String.eqb k key then found v else with_property rest key
  end.
End Property.

(** [o[key]] for a value [o] that is not an array.  Reading a property of
    [undefined] or [null] throws.  A date has no own property: every read
    goes to [Date.prototype], whose members are left out of the fragment,
    as are the wrappers of the other primitives. *)
Definition get (o : value) (key : string) : result value :=
  match o with
  | VUndefined | VNull => Throw TypeError
  | VObject props => with_property Ok (Ok VUndefined) props key
  | _ => Unmodelled
  end.

(** The members of [Object.prototype] that throw a [TypeError] when they
    are called as plain functions, with no receiver and with data as
    arguments: [__proto__] is no function; [hasOwnProperty], [valueOf],
    [propertyIsEnumerable] and [toLocaleString] convert the missing receiver
    to an object; [__defineGetter__] and [__defineSetter__] are given an
    accessor that is no function. *)
Definition Object_prototype_throwing : list string :=
  [ "__proto__"; "hasOwnProperty"; "valueOf"; "propertyIsEnumerable";
    "toLocaleString"; "__defineGetter__"; "__defineSetter__" ].

(** The call [member(a, b)] of the member of [Object.prototype] named
    [name].  The members that do not throw return values that are not
    booleans ([constructor], [toString]) or depend on the engine. *)
Definition Object_prototype_call (name : string) (a b : value) : result bool :=
  if mem name Object_prototype_throwing then Throw TypeError else Unmodelled.

(** The key of the element at index [i] of an array. *)
Definition index_key (i : nat) : string :=
  NilZero.string_of_uint (Nat.to_uint i).

Fixpoint entries_from (i : nat) (items : list value) : list (string * value) :=
  match items with
  | [] => []
  | v :: rest => (index_key i, v) :: entries_from (S i) rest
  end.

Fixpoint characters (s : string) : list value :=
  match s with
  | EmptyString => []
  | String c rest => VString (String c EmptyString) :: characters rest
  end.

(** [Object.entries(v)]: [ToObject] throws on [undefined] and [null]; a
    number, a boolean and a date have no own enumerable property; an array
    and a string list their indices. *)
Definition Object_entries (v : value) : result (list (string * value)) :=
  match v with
  | VUndefined | VNull => Throw TypeError
  | VBool _ | VNumber _ | VDate _ => Ok []
  | VString s => Ok (entries_from 0 (characters s))
  | VArray items => Ok (entries_from 0 items)
  | VObject props => Ok props
  end.

(** *** Operators *)

(** Whether the conversion of [v] to a string throws: an object whose own
    [toString] is data, not a function, has no primitive value; an array
    joins the strings of its elements. *)
Fixpoint toString_throws (v : value) : bool :=
  match v with
  | VObject props => mem "toString" (List.map fst props)
  | VArray items => existsb toString_throws items
  | _ => false
  end.

(** [ToPrimitive] with hint number: a date gives its time value; an
    ordinary object goes through the inherited [valueOf], which returns the
    object, to [toString], which gives ["[object Object]"] when it is the
    inherited one; an array goes to [join], whose string is left out. *)
Definition ToPrimitive (v : value) : result value :=
  match v with
  | VDate time => Ok (VNumber time)
  | VObject props =>
      if toString_throws v then Throw TypeError else Ok (VString "[object Object]")
  | VArray items =>
      if toString_throws v then Throw TypeError else Unmodelled
  | _ => Ok v
  end.

(** [ToNumber] of a primitive. *)
Definition ToNumber (v : value) : result float :=
  match v with
  | VUndefined => Ok nan
  | VNull => Ok 0%float
  | VBool b => Ok (if b then 1%float else 0%float)
  | VNumber n => Ok n
  | _ => Unmodelled
  end.

Section Relational.
(** What the operator answers on two strings and on two numbers. *)
Variable on_strings : string -> string -> bool.
Variable on_numbers : float -> float -> bool.

Definition relational (x y : value) : result bool :=
  px <- ToPrimitive x ;;
  py <- ToPrimitive y ;;
  match px, py with
  | VString s, VString t => Ok (on_strings s t)
  | _, _ => nx <- ToNumber px ;; ny <- ToNumber py ;; Ok (on_numbers nx ny)
  end.
End Relational.

(** [x < y], [x > y], [x <= y], [x >= y] *)
Definition lt : value -> value -> result bool :=
  relational String.ltb PrimFloat.ltb.
Definition gt : value -> value -> result bool :=
  relational (fun s t => String.ltb t s) (fun a b => PrimFloat.ltb b a).
Definition le : value -> value -> result bool :=
  relational (fun s t => negb (String.ltb t s)) PrimFloat.leb.
Definition ge : value -> value -> result bool :=
  relational (fun s t => negb (String.ltb s t)) (fun a b => PrimFloat.leb b a).

(** [x === y] on two numbers. *)
Definition number_eq (a b : float) : bool := PrimFloat.eqb a b.

(** [x == y] *)
Definition loose_eq (x y : value) : result bool :=
  match x, y with
  | (VUndefined | VNull), (VUndefined | VNull) => Ok true
  | (VUndefined | VNull), _ | _, (VUndefined | VNull) => Ok false
  | VBool a, VBool b => Ok (Bool.eqb a b)
  | VNumber a, VNumber b => Ok (number_eq a b)
  | VString s, VString t => Ok (String.eqb s t)
  | VBool a, VNumber b => Ok (number_eq (if a then 1%float else 0%float) b)
  | VNumber a, VBool b => Ok (number_eq a (if b then 1%float else 0%float))
  | _, _ => Unmodelled
  end.

(** [SameValueZero(x, y)], the comparison of [includes]. *)
Definition SameValueZero (x y : value) : result bool :=
  match x, y with
  | VUndefined, VUndefined | VNull, VNull => Ok true
  | VBool a, VBool b => Ok (Bool.eqb a b)
  | VNumber a, VNumber b =>
      Ok (number_eq a b || (PrimFloat.is_nan a && PrimFloat.is_nan b))
  | VString s, VString t => Ok (String.eqb s t)
  | (VDate _ | VArray _ | VObject _), (VDate _ | VArray _ | VObject _) => Unmodelled
  | _, _ => Ok false
  end.

(** [items.includes(x)] *)
Definition includes (items : list value) (x : value) : result bool :=
  some (fun element => SameValueZero element x) items.

End JS.

(* ================================================================== *)
(** ** [src/utils.js] *)
(* ================================================================== *)

Module Utils.
Import JS.

(** [typeof value === 'object' && value !== null] *)
Definition isObject (value : value) : bool :=
  String.eqb (typeof value) "object" && negb (is_null value).

End Utils.

(* ================================================================== *)
(** ** [src/eligibility.service.js] *)
(* ================================================================== *)

Module EligibilityService.
Import JS Utils.

(** *** The registry [this.operations] *)

(** The seven own properties of the registry. *)
Inductive operation : Type := OpGt | OpLt | OpGte | OpLte | OpIn | OpAnd | OpOr.

(** What reading a property of an object literal finds. *)
Inductive property (A : Type) : Type :=
| Own (a : A)
| Inherited
| Absent.

Arguments Own {A} a.
Arguments Inherited {A}.
Arguments Absent {A}.

(** [this.operations[op]] *)
Definition operations (op : string) : property operation :=
  if String.eqb op "gt" then Own OpGt
  else if String.eqb op "lt" then Own OpLt
  else if String.eqb op "gte" then Own OpGte
  else if String.eqb op "lte" then Own OpLte
  else if String.eqb op "in" then Own OpIn
  else if String.eqb op "and" then Own OpAnd
  else if String.eqb op "or" then Own OpOr
  else if mem op Object_prototype_names then Inherited
  else Absent.

(** The names under which the registry holds an operation. *)
Definition registry : list string :=
  ["gt"; "lt"; "gte"; "lte"; "in"; "and"; "or"].

(** *** [_comparePrimitiveValues] and [_compareValues] *)

Definition _comparePrimitiveValues (a b : value) : result bool :=
  match a, b with
  | VDate ta, VDate tb => Ok (number_eq ta tb)
  | _, _ => loose_eq a b
  end.

Definition _compareValues (a b : value)
    (compareFn : value -> value -> result bool) : result bool :=
  match a, b with
  | VDate ta, VDate tb => compareFn (VNumber ta) (VNumber tb)
  | _, _ => compareFn a b
  end.

(** *** [_evaluateOperation] and [_evaluateLogicalOperation] *)

(** [logicalOperations[logicalOp]]: the name of the array method.  An
    inherited member is no name of a method of [entries]: [entries[method]]
    is [undefined] and its call throws. *)
Inductive method : Type := Every | Some_.

Definition logicalOperations (logicalOp : string) : property method :=
  if String.eqb logicalOp "and" then Own Every
  else if String.eqb logicalOp "or" then Own Some_
  else if mem logicalOp Object_prototype_names then Inherited
  else Absent.

Section Indexed.
Variable f : string -> value -> result bool.

(** [every] and [some] over the entries of an array, index by index. *)
Fixpoint every_indexed (i : nat) (items : list value) : result bool :=
  match items with
  | [] => Ok true
  | v :: rest =>
      b <- f (index_key i) v ;; if b then every_indexed (S i) rest else Ok false
  end.

Fixpoint some_indexed (i : nat) (items : list value) : result bool :=
  match items with
  | [] => Ok false
  | v :: rest =>
      b <- f (index_key i) v ;; if b then Ok true else some_indexed (S i) rest
  end.
End Indexed.

Definition InvalidLogical (logicalOp : string) : exn :=
  InvalidCriteriaError
    ("Conditions for logical operation '" ++ logicalOp ++ "' must be an object").

Definition Unsupported (op : string) : exn :=
  InvalidCriteriaError ("Unsupported operation: " ++ op).

(** [_evaluateOperation], by recursion on the operand: [and] and [or] go
    through the body of [_evaluateLogicalOperation] and come back on the
    values of the operand's entries.  The entries are walked constructor by
    constructor; [_evaluateOperation_eq] below restates the function as the
    lookup and the call of the source, with [_evaluateLogicalOperation] as
    defined next. *)
Fixpoint _evaluateOperation (op : string) (cartValue value : value)
    {struct value} : result bool :=
  let logical (logicalOp : string) : result bool :=
    if negb (isObject value) then Throw (InvalidLogical logicalOp)
    else
      let callback := fun op' value' => _evaluateOperation op' cartValue value' in
      match logicalOperations logicalOp with
      | Absent => Ok false
      | Inherited => Throw TypeError
      | Own Every =>
          match value with
          | VObject props => every (fun '(op', value') => callback op' value') props
          | VArray items => every_indexed callback 0 items
          | _ => Ok true
          end
      | Own Some_ =>
          match value with
          | VObject props => some (fun '(op', value') => callback op' value') props
          | VArray items => some_indexed callback 0 items
          | _ => Ok false
          end
      end in
  match operations op with
  | Absent => Throw (Unsupported op)
  | Inherited => Object_prototype_call op cartValue value
  | Own OpGt => _compareValues cartValue value gt
  | Own OpLt => _compareValues cartValue value lt
  | Own OpGte => _compareValues cartValue value ge
  | Own OpLte => _compareValues cartValue value le
  | Own OpIn => if isArray value then includes (elements value) cartValue else Ok false
  | Own OpAnd => logical "and"
  | Own OpOr => logical "or"
  end.

Definition _evaluateLogicalOperation (logicalOp : string)
    (cartValue conditions : value) : result bool :=
  if negb (isObject conditions) then Throw (InvalidLogical logicalOp)
  else
    entries <- Object_entries conditions ;;
    match logicalOperations logicalOp with
    | Absent => Ok false
    | Inherited => Throw TypeError
    | Own Every =>
        every (fun '(op, value) => _evaluateOperation op cartValue value) entries
    | Own Some_ =>
        some (fun '(op, value) => _evaluateOperation op cartValue value) entries
    end.

(** The call [operation(cartValue, value)] of a registry entry. *)
Definition call (f : operation) (a b : value) : result bool :=
  match f with
  | OpGt => _compareValues a b gt
  | OpLt => _compareValues a b lt
  | OpGte => _compareValues a b ge
  | OpLte => _compareValues a b le
  | OpIn => if isArray b then includes (elements b) a else Ok false
  | OpAnd => _evaluateLogicalOperation "and" a b
  | OpOr => _evaluateLogicalOperation "or" a b
  end.

(** *** [_evaluateCondition] *)

(** The two paths of [_evaluateCondition] that a [cartValue] which is not an
    object takes: the comparison of primitives (first test of the function)
    and the operators of a leaf condition (its last line). *)
Definition evaluate_non_object (cartValue condition : value) : result bool :=
  if negb (isObject condition) && negb (isObject cartValue)
  then _comparePrimitiveValues cartValue condition
  else
    entries <- Object_entries condition ;;
    every (fun '(op, value) => _evaluateOperation op cartValue value) entries.

(** [_evaluateCondition], by recursion on [cartValue]: the calls are on the
    elements of an array and on the properties of an object.  A property the
    object does not have reads as [undefined], which is not an object and
    takes [evaluate_non_object].  [_evaluateCondition_eq] below restates the
    function with [get], as the source reads. *)
Fixpoint _evaluateCondition (cartValue condition : value)
    {struct cartValue} : result bool :=
  if negb (isObject condition) && negb (isObject cartValue)
  then _comparePrimitiveValues cartValue condition
  else
    match cartValue with
    | VArray items =>
        some (fun value => _evaluateCondition value condition) items
    | VObject props =>
        let at_key (key : string) (sub : value) : result bool :=
          with_property (fun property => _evaluateCondition property sub)
                        (evaluate_non_object VUndefined sub) props key in
        entries <- Object_entries condition ;;
        every (fun '(key, value) =>
                 if isArray value
                 then some (fun subValue => at_key key subValue) (elements value)
                 else at_key key value) entries
    | VDate _ =>
        entries <- Object_entries condition ;;
        every (fun '(key, value) =>
                 if isArray value
                 then some (fun subValue => Unmodelled) (elements value)
                 else Unmodelled) entries
    | _ =>
        entries <- Object_entries condition ;;
        every (fun '(op, value) => _evaluateOperation op cartValue value) entries
    end.

(** *** [_getValueByKey] *)

(** The callback of [reduce].  On an array the source calls
    [_getValueByKey(item, part)], which splits [part], a segment that holds
    no ['.'], into [[part]] and so applies the callback once more, to [item]
    ([_getValueByKey_segment] below). *)
Fixpoint reducer (acc : value) (part : string) {struct acc} : result value :=
  match acc with
  | VArray items =>
      mapped <- map (fun item => reducer item part) items ;;
      Ok (VArray (flat mapped))
  | _ =>
      if ToBoolean acc && String.eqb (typeof acc) "object"
      then get acc part
      else Ok VUndefined
  end.

Definition _getValueByKey (cart : value) (key : string) : result value :=
  reduce reducer (split "." key) cart.

(** *** [isEligible] *)

Definition isEligible (cart criteria : value) : result bool :=
  if negb (isObject cart) || negb (isObject criteria)
  then Throw (InvalidCriteriaError "Both cart and criteria should be objects")
  else
    entries <- Object_entries criteria ;;
    every (fun '(key, condition) =>
             value <- _getValueByKey cart key ;;
             _evaluateCondition value condition) entries.

End EligibilityService.

(* ================================================================== *)
(** ** Documents used as examples *)
(* ================================================================== *)

Module Examples.
Import JS.

(** [{color: "red"}] and the criteria [{"color": [c1, c2]}] *)
Definition cart_color : value := VObject [("color", VString "red")].
Definition criteria_color (c1 c2 : string) : value :=
  VObject [("color", VArray [VString c1; VString c2])].

(** [{user: {color: "red"}}] and the criteria [{"user": {"color": [c1, c2]}}] *)
Definition cart_user_color : value :=
  VObject [("user", VObject [("color", VString "red")])].
Definition criteria_user_color (c1 c2 : string) : value :=
  VObject [("user", VObject [("color", VArray [VString c1; VString c2])])].

(** [{age: 20}] and the criteria [{"age": {"foo": 1}}] *)
Definition cart_age : value := VObject [("age", VNumber 20)].
Definition criteria_age_foo : value :=
  VObject [("age", VObject [("foo", VNumber 1)])].

(** [{d: new Date(0)}] and the criteria [{"d": new Date(1)}] *)
Definition cart_date : value := VObject [("d", VDate 0)].
Definition criteria_date : value := VObject [("d", VDate 1)].

(** [{user: {age: 25}}] and the criteria [{"user": null}], [{"user": 42}] *)
Definition cart_user : value := VObject [("user", VObject [("age", VNumber 25)])].
Definition criteria_user_null : value := VObject [("user", VNull)].
Definition criteria_user_42 : value := VObject [("user", VNumber 42)].

(** [{items: [{qty: 1}, {qty: 5}]}] and the criteria [{"items.qty": {"gte": n}}] *)
Definition cart_items : value :=
  VObject [("items", VArray [VObject [("qty", VNumber 1)];
                             VObject [("qty", VNumber 5)]])].
Definition criteria_qty_gte (n : float) : value :=
  VObject [("items.qty", VObject [("gte", VNumber n)])].

(** [{items: [{qty: [1, 5]}, {qty: 7}]}] *)
Definition cart_nested_items : value :=
  VObject [("items", VArray [VObject [("qty", VArray [VNumber 1; VNumber 5])];
                             VObject [("qty", VNumber 7)]])].

(** [{a: 1, items: []}] and the criteria [{"a": {"foo": 1}, "items": 1}] *)
Definition cart_no_items : value :=
  VObject [("a", VNumber 1); ("items", VArray [])].
Definition criteria_foo_then_items : value :=
  VObject [("a", VObject [("foo", VNumber 1)]); ("items", VNumber 1)].

End Examples.

(* ================================================================== *)
(** ** Shapes of criteria *)
(* ================================================================== *)

Module Shapes.
Import JS.

(** A document that holds neither [null] nor [undefined], at any depth. *)
Fixpoint no_nullish (v : value) : bool :=
  match v with
  | VUndefined | VNull => false
  | VBool _ | VNumber _ | VString _ | VDate _ => true
  | VArray items => forallb no_nullish items
  | VObject props => forallb (fun entry => no_nullish (snd entry)) props
  end.

(** A document none of whose keys, at any depth, is a name inherited from
    [Object.prototype]. *)
Fixpoint no_inherited_name (v : value) : bool :=
  match v with
  | VArray items => forallb no_inherited_name items
  | VObject props =>
      forallb (fun entry => negb (mem (fst entry) Object_prototype_names)
                            && no_inherited_name (snd entry)) props
  | _ => true
  end.

(** The first segment of a dotted path. *)
Definition first_segment (key : string) : string :=
  hd EmptyString (split "." key).

End Shapes.

(* ================================================================== *)
(** ** The embedding reads as the source *)
(* ================================================================== *)

Module Unfolding.
Import JS Utils EligibilityService.

Lemma mem_In (name : string) (names : list string) :
  mem name names = true <-> In name names.
Proof.
  unfold mem. rewrite existsb_exists. split.
  - intros [x [Hin Heq]]. apply String.eqb_eq in Heq. now subst.
  - intros Hin. exists name. split; [assumption | apply String.eqb_refl].
Qed.

(** [isObject] holds of dates, arrays and objects, and of nothing else. *)
Lemma isObject_spec (v : value) :
  isObject v = match v with
               | VDate _ | VArray _ | VObject _ => true
               | _ => false
               end.
Proof. destruct v; reflexivity. Qed.

Lemma every_ext {A : Type} (f g : A -> result bool) (l : list A) :
  (forall x, In x l -> f x = g x) -> every f l = every g l.
Proof.
  induction l as [|x rest IH]; intros H; simpl; [reflexivity|].
  rewrite (H x (or_introl eq_refl)).
  destruct (g x) as [[|]| |]; simpl; try reflexivity.
  apply IH. intros y Hy. apply H. now right.
Qed.

Lemma some_ext {A : Type} (f g : A -> result bool) (l : list A) :
  (forall x, In x l -> f x = g x) -> some f l = some g l.
Proof.
  induction l as [|x rest IH]; intros H; simpl; [reflexivity|].
  rewrite (H x (or_introl eq_refl)).
  destruct (g x) as [[|]| |]; simpl; try reflexivity.
  apply IH. intros y Hy. apply H. now right.
Qed.

Lemma map_ext {A B : Type} (f g : A -> result B) (l : list A) :
  (forall x, In x l -> f x = g x) -> map f l = map g l.
Proof.
  induction l as [|x rest IH]; intros H; simpl; [reflexivity|].
  rewrite (H x (or_introl eq_refl)), IH; [reflexivity|].
  intros y Hy. apply H. now right.
Qed.

Lemma every_indexed_entries (f : string -> value -> result bool) (items : list value) :
  forall i, every_indexed f i items
            = every (fun '(key, v) => f key v) (entries_from i items).
Proof.
  induction items as [|v rest IH]; intros i; simpl; [reflexivity|].
  destruct (f (index_key i) v) as [[|]| |]; simpl; auto.
Qed.

Lemma some_indexed_entries (f : string -> value -> result bool) (items : list value) :
  forall i, some_indexed f i items
            = some (fun '(key, v) => f key v) (entries_from i items).
Proof.
  induction items as [|v rest IH]; intros i; simpl; [reflexivity|].
  destruct (f (index_key i) v) as [[|]| |]; simpl; auto.
Qed.

(** [_evaluateOperation]: the lookup in the registry, the exception when it
    finds nothing, the call otherwise. *)
Lemma _evaluateOperation_eq (op : string) (cartValue value : value) :
  _evaluateOperation op cartValue value
  = match operations op with
    | Absent => Throw (InvalidCriteriaError ("Unsupported operation: " ++ op))
    | Inherited => Object_prototype_call op cartValue value
    | Own operation => call operation cartValue value
    end.
Proof.
  destruct value; simpl; destruct (operations op) as [[]| |]; try reflexivity;
    unfold call, _evaluateLogicalOperation; simpl;
    rewrite ?every_indexed_entries, ?some_indexed_entries; reflexivity.
Qed.

(** Reading a property and continuing is [get] followed by the
    continuation, when a missing property continues as [undefined] does. *)
Lemma with_property_get {R : Type} (found : value -> result R)
    (props : list (string * value)) (key : string) :
  with_property found (found VUndefined) props key
  = (property <- get (VObject props) key ;; found property).
Proof.
  unfold get. induction props as [|[k v] rest IH]; cbn [with_property].
  - destruct (mem key Object_prototype_names); reflexivity.
  - destruct (String.eqb k key); [reflexivity | exact IH].
Qed.

Lemma evaluate_non_object_eq (cartValue condition : value) :
  isObject cartValue = false ->
  evaluate_non_object cartValue condition = _evaluateCondition cartValue condition.
Proof.
  intros H. destruct cartValue; try discriminate H; reflexivity.
Qed.

(** [_evaluateCondition], test by test as in the source. *)
Lemma _evaluateCondition_eq (cartValue condition : value) :
  _evaluateCondition cartValue condition
  = if negb (isObject condition) && negb (isObject cartValue)
    then _comparePrimitiveValues cartValue condition
    else if isArray cartValue
    then some (fun value => _evaluateCondition value condition) (elements cartValue)
    else if isObject cartValue
    then
      entries <- Object_entries condition ;;
      every (fun '(key, value) =>
               if isArray value
               then some (fun subValue =>
                            property <- get cartValue key ;;
                            _evaluateCondition property subValue) (elements value)
               else property <- get cartValue key ;;
                    _evaluateCondition property value) entries
    else
      entries <- Object_entries condition ;;
      every (fun '(op, value) => _evaluateOperation op cartValue value) entries.
Proof.
  destruct cartValue as [| | b | n | s | time | items | props];
    try (destruct condition; reflexivity).
  (* an object *)
  cbn [_evaluateCondition isObject typeof is_null isArray String.eqb Ascii.eqb
       Bool.eqb negb andb].
  destruct (negb (isObject condition)); cbn [andb];
  destruct (Object_entries condition) as [entries| |]; cbn [bind]; try reflexivity;
  apply every_ext; intros [key value] _;
  assert (Hsub : forall sub,
    with_property (fun property => _evaluateCondition property sub)
                  (evaluate_non_object VUndefined sub) props key
    = (property <- get (VObject props) key ;; _evaluateCondition property sub))
    by (intros sub; rewrite <- with_property_get;
        rewrite (evaluate_non_object_eq VUndefined sub eq_refl); reflexivity);
  (destruct (isArray value); [apply some_ext; intros sub _; apply Hsub | apply Hsub]).
Qed.

(** A segment that [split] produces splits into itself. *)
Lemma split_segments (sep : ascii) (s : string) :
  Forall (fun segment => split sep segment = [segment]) (split sep s).
Proof.
  induction s as [|c rest IH]; cbn [split].
  - constructor; [reflexivity | constructor].
  - destruct (Ascii.eqb c sep) eqn:Hc.
    + constructor; [reflexivity | exact IH].
    + destruct (split sep rest) as [|head tail] eqn:Hrest.
      * constructor; [|constructor]. cbn [split]. rewrite Hc. reflexivity.
      * inversion IH as [|? ? Hhead Htail]; subst.
        constructor; [|exact Htail]. cbn [split]. rewrite Hc, Hhead. reflexivity.
Qed.

(** On such a segment [_getValueByKey] is one application of the callback. *)
Lemma _getValueByKey_segment (item : value) (part : string) :
  split "." part = [part] -> _getValueByKey item part = reducer item part.
Proof.
  intros H. unfold _getValueByKey. rewrite H. cbn [reduce].
  destruct (reducer item part); reflexivity.
Qed.

(** The callback of [reduce], test by test as in the source. *)
Lemma reducer_eq (acc : value) (part : string) :
  split "." part = [part] ->
  reducer acc part
  = if isArray acc
    then mapped <- map (fun item => _getValueByKey item part) (elements acc) ;;
         Ok (VArray (flat mapped))
    else if ToBoolean acc && String.eqb (typeof acc) "object"
    then get acc part
    else Ok VUndefined.
Proof.
  intros H. destruct acc; try reflexivity.
  cbn [reducer isArray elements].
  rewrite (map_ext (fun item => _getValueByKey item part)
                   (fun item => reducer item part)); [reflexivity|].
  intros item _. now apply _getValueByKey_segment.
Qed.

Lemma reduce_ext {A B : Type} (f g : A -> B -> result A) (l : list B) :
  Forall (fun x => forall acc, f acc x = g acc x) l ->
  forall acc, reduce f l acc = reduce g l acc.
Proof.
  induction 1 as [|x rest Hx _ IH]; intros acc; cbn [reduce]; [reflexivity|].
  rewrite Hx. destruct (g acc x); cbn [bind]; auto.
Qed.

(** [_getValueByKey] as the source writes it: the fold of the callback,
    with the call of [_getValueByKey] itself on the items of an array. *)
Lemma _getValueByKey_eq (cart : value) (key : string) :
  _getValueByKey cart key
  = reduce (fun acc part =>
              if isArray acc
              then mapped <- map (fun item => _getValueByKey item part) (elements acc) ;;
                   Ok (VArray (flat mapped))
              else if ToBoolean acc && String.eqb (typeof acc) "object"
              then get acc part
              else Ok VUndefined)
           (split "." key) cart.
Proof.
  unfold _getValueByKey at 1. apply reduce_ext.
  eapply Forall_impl; [|apply split_segments].
  intros part Hpart acc. now apply reducer_eq.
Qed.

(** A path never throws: reading a property that is absent gives
    [undefined]. *)
Lemma with_property_Ok_never_throws (props : list (string * value)) (key : string) (e : exn) :
  with_property Ok (Ok VUndefined) props key <> Throw e.
Proof.
  induction props as [|[k v] rest IH]; cbn [with_property].
  - destruct (mem key Object_prototype_names); discriminate.
  - destruct (String.eqb k key); [discriminate | exact IH].
Qed.

(** Induction on a value whose hypotheses cover the elements of an array
    and the values of the properties of an object. *)
Lemma value_nested_ind (P : value -> Prop) :
  P VUndefined -> P VNull ->
  (forall b, P (VBool b)) -> (forall n, P (VNumber n)) ->
  (forall s, P (VString s)) -> (forall time, P (VDate time)) ->
  (forall items, Forall P items -> P (VArray items)) ->
  (forall props, Forall (fun entry => P (snd entry)) props -> P (VObject props)) ->
  forall v, P v.
Proof.
  intros Hundefined Hnull Hbool Hnumber Hstring Hdate Harray Hobject.
  fix IH 1. intros [| | b | n | s | time | items | props].
  - exact Hundefined.
  - exact Hnull.
  - apply Hbool.
  - apply Hnumber.
  - apply Hstring.
  - apply Hdate.
  - apply Harray. induction items as [|item rest IHrest]; constructor;
      [apply IH | exact IHrest].
  - apply Hobject. induction props as [|[k v] rest IHrest]; constructor;
      [apply IH | exact IHrest].
Qed.

Lemma map_never_throws {A B : Type} (f : A -> result B) (l : list A) :
  Forall (fun x => forall e, f x <> Throw e) l ->
  forall e, map f l <> Throw e.
Proof.
  induction 1 as [|x rest Hx _ IH]; intros e; cbn [map]; [discriminate|].
  specialize (Hx e). specialize (IH e).
  destruct (f x); cbn [bind]; try congruence.
  destruct (map f rest); cbn [bind]; congruence.
Qed.

Lemma reducer_never_throws (part : string) (acc : value) :
  forall e, reducer acc part <> Throw e.
Proof.
  revert acc. apply (value_nested_ind (fun acc => forall e, reducer acc part <> Throw e));
    try (intros; simpl; rewrite ?andb_false_r; discriminate).
  - intros items IH e. cbn [reducer].
    pose proof (map_never_throws (fun item => reducer item part) items IH e) as Hmap.
    destruct (map (fun item => reducer item part) items); cbn [bind]; congruence.
  - intros props _ e. apply (with_property_Ok_never_throws props part e).
Qed.

(** Resolving a path never throws, whatever the record and the path; a
    key that is absent reads as [undefined] ([get_absent]). *)
Lemma _getValueByKey_never_throws (cart : value) (key : string) (e : exn) :
  _getValueByKey cart key <> Throw e.
Proof.
  unfold _getValueByKey. generalize (split "." key) as parts. intros parts.
  revert cart. induction parts as [|part rest IH]; intros cart; cbn [reduce];
    [discriminate|].
  pose proof (reducer_never_throws part cart e) as Hstep.
  destruct (reducer cart part); cbn [bind]; [apply IH | congruence | discriminate].
Qed.

Lemma get_absent (props : list (string * value)) (key : string) :
  mem key (List.map fst props) = false ->
  mem key Object_prototype_names = false ->
  get (VObject props) key = Ok VUndefined.
Proof.
  unfold get. intros Hown Hinherited.
  induction props as [|[k v] rest IH]; cbn [with_property].
  - now rewrite Hinherited.
  - unfold mem in Hown. cbn [List.map fst existsb] in Hown.
    apply orb_false_iff in Hown as [Hk Hrest].
    rewrite String.eqb_sym, Hk. now apply IH.
Qed.

End Unfolding.

(* ================================================================== *)
(** ** Properties of the evaluator *)
(* ================================================================== *)

Module Properties.
Import JS Utils EligibilityService Examples Unfolding.

(** *** Shared lemmas *)

Lemma operations_absent (op : string) :
  mem op registry = false ->
  mem op Object_prototype_names = false ->
  operations op = Absent.
Proof.
  intros Hown Hinherited. unfold operations. rewrite Hinherited.
  unfold mem, registry in Hown. cbn [existsb] in Hown.
  repeat (apply orb_false_iff in Hown as [Hop Hown]; rewrite Hop; clear Hop).
  reflexivity.
Qed.

Lemma operations_own (op : string) (operation : operation) :
  operations op = Own operation -> In op registry.
Proof.
  unfold operations.
  repeat match goal with
         | |- context [String.eqb op ?name] =>
             destruct (String.eqb_spec op name) as [->|_]; [intros _; simpl; tauto|]
         end.
  destruct (mem op Object_prototype_names); discriminate.
Qed.

(** [every] is decided by the first entry that gives [false], once the
    entries before it have given an answer. *)
Lemma every_decided {A : Type} (f : A -> result bool) (before after : list A) (x : A) :
  Forall (fun y => exists b, f y = Ok b) before ->
  f x = Ok false ->
  every f (before ++ x :: after)%list = Ok false.
Proof.
  intros Hbefore Hx. induction Hbefore as [|y rest [b Hy] _ IH]; cbn [app every].
  - rewrite Hx. reflexivity.
  - rewrite Hy. cbn [bind]. destruct b; [exact IH | reflexivity].
Qed.

(** An array matches a condition when one of its elements does. *)
Lemma _evaluateCondition_array (items : list value) (condition : value) :
  _evaluateCondition (VArray items) condition
  = some (fun value => _evaluateCondition value condition) items.
Proof.
  rewrite _evaluateCondition_eq. cbn [isObject typeof is_null isArray elements].
  rewrite andb_false_r. reflexivity.
Qed.

(** A value that is an object but no array is matched entry by entry of
    the condition. *)
Lemma _evaluateCondition_object (cartValue condition : value) :
  isObject cartValue = true -> isArray cartValue = false ->
  _evaluateCondition cartValue condition
  = (entries <- Object_entries condition ;;
     every (fun '(key, value) =>
              if isArray value
              then some (fun subValue =>
                           property <- get cartValue key ;;
                           _evaluateCondition property subValue) (elements value)
              else property <- get cartValue key ;;
                   _evaluateCondition property value) entries).
Proof.
  intros Hobject Harray. rewrite _evaluateCondition_eq, Hobject, Harray.
  rewrite andb_false_r. reflexivity.
Qed.

(** A value that is no object meets a condition that is one as a set of
    operators. *)
Lemma _evaluateCondition_leaf (cartValue condition : value) :
  isObject cartValue = false -> isObject condition = true ->
  _evaluateCondition cartValue condition
  = (entries <- Object_entries condition ;;
     every (fun '(op, value) => _evaluateOperation op cartValue value) entries).
Proof.
  intros Hvalue Hcondition. rewrite _evaluateCondition_eq, Hvalue, Hcondition.
  assert (Harray : isArray cartValue = false) by (destruct cartValue; auto; discriminate).
  rewrite Harray. reflexivity.
Qed.

(** The special handling of dates in [_comparePrimitiveValues]: equality of
    the time values. *)
Lemma _comparePrimitiveValues_dates (ta tb : float) :
  _comparePrimitiveValues (VDate ta) (VDate tb) = Ok (number_eq ta tb).
Proof. reflexivity. Qed.

(** Two dates never reach it: a date is an object, and a condition that is
    a date has no entry to check. *)
Lemma _evaluateCondition_dates (ta tb : float) :
  _evaluateCondition (VDate ta) (VDate tb) = Ok true.
Proof. reflexivity. Qed.

(** A condition that is a non-empty array, met by a value that is no
    object, is read as operators named by the indices. *)
Lemma _evaluateCondition_array_condition (cartValue first : value) (others : list value) :
  isObject cartValue = false ->
  _evaluateCondition cartValue (VArray (first :: others))
  = Throw (InvalidCriteriaError "Unsupported operation: 0").
Proof.
  intros Hvalue. rewrite _evaluateCondition_leaf by (assumption || reflexivity).
  cbn [Object_entries entries_from bind every].
  rewrite _evaluateOperation_eq. reflexivity.
Qed.

(** [undefined], what an absent key resolves to, equals [undefined] and
    [null] and no other primitive. *)
Lemma _evaluateCondition_undefined (condition : value) :
  isObject condition = false ->
  _evaluateCondition VUndefined condition
  = Ok (match condition with VUndefined | VNull => true | _ => false end).
Proof.
  intros H. destruct condition; try discriminate H; reflexivity.
Qed.

(** [Object.entries(null)] under an object. *)
Lemma _evaluateCondition_null_condition (cartValue : value) :
  isObject cartValue = true -> isArray cartValue = false ->
  _evaluateCondition cartValue VNull = Throw TypeError.
Proof.
  intros Hobject Harray. rewrite _evaluateCondition_object by assumption. reflexivity.
Qed.

(** *** Claims *)

(** C1 (the code at the claim's inputs).  For the record [{color: "red"}]
    the criteria [{"color": ["red", "blue"]}] and [{"color": ["green",
    "blue"]}] do not give [true] and [false]: the array meets a primitive,
    its indices are read as operator names, and [isEligible] throws
    [InvalidCriteriaError] for the operation ["0"]. *)
Theorem array_condition_on_primitive_throws :
  isEligible cart_color (criteria_color "red" "blue")
  = Throw (InvalidCriteriaError "Unsupported operation: 0")
  /\ isEligible cart_color (criteria_color "green" "blue")
     = Throw (InvalidCriteriaError "Unsupported operation: 0").
Proof. split; reflexivity. Qed.

(** The path that does what C1 describes: an array under a key of a
    condition that meets an object is matched element by element. *)
Lemma array_condition_under_object :
  isEligible cart_user_color (criteria_user_color "red" "blue") = Ok true
  /\ isEligible cart_user_color (criteria_user_color "green" "blue") = Ok false.
Proof. split; reflexivity. Qed.

(** C2 (amended).  An operator name that the registry does not hold, and
    that is no name inherited from [Object.prototype], makes
    [_evaluateOperation] throw [InvalidCriteriaError] with the message
    ["Unsupported operation: "] followed by the name; a leaf condition whose
    first entry has such a name fails with it. *)
Theorem unsupported_operation_throws
    (op : string) (cartValue value : value) (others : list (string * JS.value)) :
  mem op registry = false ->
  mem op Object_prototype_names = false ->
  isObject cartValue = false ->
  _evaluateOperation op cartValue value
  = Throw (InvalidCriteriaError ("Unsupported operation: " ++ op))
  /\ _evaluateCondition cartValue (VObject ((op, value) :: others))
     = Throw (InvalidCriteriaError ("Unsupported operation: " ++ op)).
Proof.
  intros Hown Hinherited Hvalue.
  assert (Hop : _evaluateOperation op cartValue value
                = Throw (InvalidCriteriaError ("Unsupported operation: " ++ op))).
  { rewrite _evaluateOperation_eq, operations_absent by assumption. reflexivity. }
  split; [exact Hop|].
  rewrite _evaluateCondition_leaf by (assumption || reflexivity).
  cbn [Object_entries bind every]. rewrite Hop. reflexivity.
Qed.

Lemma unsupported_operation_throws_witness :
  _evaluateOperation "foo" (VNumber 20) (VNumber 1)
  = Throw (InvalidCriteriaError "Unsupported operation: foo")
  /\ _evaluateCondition (VNumber 20) (VObject [("foo", VNumber 1)])
     = Throw (InvalidCriteriaError "Unsupported operation: foo").
Proof.
  apply (unsupported_operation_throws "foo" (VNumber 20) (VNumber 1) []);
    reflexivity.
Defined.

(** C2 (as stated, refuted).  The criteria [{"age": {"foo": 1}}] fail with
    an [InvalidCriteriaError], the kind of the failure on malformed
    arguments: no error of another kind is thrown. *)
Lemma unsupported_operation_kind_counterexample :
  isEligible cart_age criteria_age_foo
  = Throw (InvalidCriteriaError "Unsupported operation: foo")
  /\ ~ (exists e, isEligible cart_age criteria_age_foo = Throw e
                  /\ exn_name e <> "InvalidCriteriaError").
Proof.
  split; [reflexivity|].
  intros [e [Hthrow Hname]]. apply Hname.
  vm_compute in Hthrow. injection Hthrow as <-. reflexivity.
Qed.

(** C3 (the code at a failing input).  The dates [new Date(0)] and
    [new Date(1)] differ in their time values, and the condition matches. *)
Theorem dates_match_whatever_their_time :
  number_eq 0 1 = false
  /\ _evaluateCondition (VDate 0) (VDate 1) = Ok true
  /\ isEligible cart_date criteria_date = Ok true.
Proof. repeat split; reflexivity. Qed.

(** C4 (amended).  When the record or the criteria is [undefined], [null],
    a boolean, a number or a string, that is when [isObject] rejects it,
    [isEligible] throws [InvalidCriteriaError]. *)
Theorem isEligible_rejects_non_objects (cart criteria : value) :
  isObject cart = false \/ isObject criteria = false ->
  isEligible cart criteria
  = Throw (InvalidCriteriaError "Both cart and criteria should be objects").
Proof.
  intros [H | H]; unfold isEligible; rewrite H; cbn [negb orb];
    [reflexivity | rewrite orb_true_r; reflexivity].
Qed.

Lemma isEligible_rejects_non_objects_witness :
  isEligible VNull (VObject [])
  = Throw (InvalidCriteriaError "Both cart and criteria should be objects")
  /\ isEligible cart_age (VNumber 1)
     = Throw (InvalidCriteriaError "Both cart and criteria should be objects").
Proof.
  split.
  - apply (isEligible_rejects_non_objects VNull (VObject [])). left. reflexivity.
  - apply (isEligible_rejects_non_objects cart_age (VNumber 1)). right. reflexivity.
Defined.

(** C4 (as stated, refuted).  An array at the top level, as the record or
    as the criteria, is accepted and a verdict is returned. *)
Lemma isEligible_accepts_arrays_counterexample :
  isEligible (VArray []) (VObject []) = Ok true
  /\ isEligible (VObject []) (VArray []) = Ok true
  /\ ~ (exists e, isEligible (VArray []) (VObject []) = Throw e).
Proof.
  repeat split; try reflexivity. intros [e H]. discriminate H.
Qed.

(** C5 (the code at a failing input).  The record [{user: {age: 25}}] and
    the criteria [{"user": null}] pass the check on the arguments, and the
    evaluation ends in a [TypeError], which is no [InvalidCriteriaError]. *)
Theorem null_condition_under_object_TypeError :
  isObject cart_user = true
  /\ isObject criteria_user_null = true
  /\ isEligible cart_user criteria_user_null = Throw TypeError
  /\ exn_name TypeError <> "InvalidCriteriaError".
Proof. repeat split; try reflexivity. discriminate. Qed.

(** C7.  With an empty operand mapping, [and] gives [true] and [or] gives
    [false], whatever the resolved value. *)
Theorem empty_operand_mapping (cartValue : value) :
  _evaluateOperation "and" cartValue (VObject []) = Ok true
  /\ _evaluateOperation "or" cartValue (VObject []) = Ok false
  /\ _evaluateLogicalOperation "and" cartValue (VObject []) = Ok true
  /\ _evaluateLogicalOperation "or" cartValue (VObject []) = Ok false.
Proof. repeat split; reflexivity. Qed.

(** C8.  For every record that passes the check on the arguments, the empty
    criteria give [true]. *)
Theorem empty_criteria_eligible (cart : value) :
  isObject cart = true -> isEligible cart (VObject []) = Ok true.
Proof.
  intros H. unfold isEligible. rewrite H. reflexivity.
Qed.

Lemma empty_criteria_eligible_witness :
  isEligible cart_user (VObject []) = Ok true.
Proof. apply (empty_criteria_eligible cart_user). reflexivity. Defined.

(** C9 (amended).  A value that is an empty array matches no condition.
    When a path of the criteria resolves to an empty array and the entries
    listed before it have each given an answer, [isEligible] returns
    [false]. *)
Theorem empty_sequence_entry_false
    (cart criteria : value) (before after : list (string * value))
    (key : string) (condition : value) :
  isObject cart = true ->
  isObject criteria = true ->
  Object_entries criteria = Ok (before ++ (key, condition) :: after)%list ->
  _getValueByKey cart key = Ok (VArray []) ->
  Forall (fun '(k, c) =>
            exists b, (value <- _getValueByKey cart k ;;
                       _evaluateCondition value c) = Ok b) before ->
  (forall c, _evaluateCondition (VArray []) c = Ok false)
  /\ isEligible cart criteria = Ok false.
Proof.
  intros Hcart Hcriteria Hentries Hpath Hbefore.
  assert (Hempty : forall c, _evaluateCondition (VArray []) c = Ok false).
  { intros c. rewrite _evaluateCondition_array. reflexivity. }
  split; [exact Hempty|].
  unfold isEligible. rewrite Hcart, Hcriteria, Hentries. cbn [negb orb bind].
  apply every_decided.
  - eapply Forall_impl; [|exact Hbefore]. intros [k c] Hb. exact Hb.
  - rewrite Hpath. cbn [bind]. apply Hempty.
Qed.

Lemma empty_sequence_entry_false_witness :
  (forall c, _evaluateCondition (VArray []) c = Ok false)
  /\ isEligible cart_no_items
       (VObject [("a", VNumber 1); ("items.qty", VObject [("gte", VNumber 3)])])
     = Ok false.
Proof.
  apply (empty_sequence_entry_false cart_no_items
           (VObject [("a", VNumber 1); ("items.qty", VObject [("gte", VNumber 3)])])
           [("a", VNumber 1)] [] "items.qty" (VObject [("gte", VNumber 3)]));
    try reflexivity.
  constructor; [exists true; reflexivity | constructor].
Defined.

(** C9 (as stated, refuted).  In [{a: 1, items: []}] the path ["items"]
    resolves to an empty array, and the criteria
    [{"a": {"foo": 1}, "items": 1}] do not give [false]: the entry before
    throws. *)
Lemma empty_sequence_entry_counterexample :
  _getValueByKey cart_no_items "items" = Ok (VArray [])
  /\ Object_entries criteria_foo_then_items
     = Ok [("a", VObject [("foo", VNumber 1)]); ("items", VNumber 1)]
  /\ isEligible cart_no_items criteria_foo_then_items
     = Throw (InvalidCriteriaError "Unsupported operation: foo")
  /\ isEligible cart_no_items criteria_foo_then_items <> Ok false.
Proof. repeat split; try reflexivity. discriminate. Qed.

(** C10.  A value that is an object but no array matches every condition
    that has no enumerable own entry, such as a number, a boolean or a
    date. *)
Theorem entryless_condition_matches_object (cartValue condition : value) :
  isObject cartValue = true ->
  isArray cartValue = false ->
  Object_entries condition = Ok [] ->
  _evaluateCondition cartValue condition = Ok true.
Proof.
  intros Hobject Harray Hentries.
  rewrite _evaluateCondition_object, Hentries by assumption. reflexivity.
Qed.

Lemma entryless_condition_matches_object_witness :
  _evaluateCondition (VObject [("age", VNumber 25)]) (VNumber 42) = Ok true.
Proof.
  apply (entryless_condition_matches_object
           (VObject [("age", VNumber 25)]) (VNumber 42)); reflexivity.
Defined.

(** The example of C10, and the conditions it names. *)
Lemma entryless_condition_examples :
  isEligible cart_user criteria_user_42 = Ok true
  /\ (forall n, Object_entries (VNumber n) = Ok [])
  /\ (forall b, Object_entries (VBool b) = Ok [])
  /\ (forall time, Object_entries (VDate time) = Ok []).
Proof. repeat split; reflexivity. Qed.

End Properties.

(* ================================================================== *)
(** ** Further properties of the evaluator *)
(* ================================================================== *)

Module Further.
Import JS Utils EligibilityService Examples Shapes Unfolding Properties.

(** *** Shared lemmas: iteration *)

Lemma bind_verdict (r : result bool) :
  (b <- r ;; if b then Ok true else Ok false) = r.
Proof. destruct r as [[|]| |]; reflexivity. Qed.

Lemma every_true_iff {A : Type} (f : A -> result bool) (l : list A) :
  every f l = Ok true <-> Forall (fun x => f x = Ok true) l.
Proof.
  induction l as [|x rest IH]; cbn [every].
  - split; [constructor | reflexivity].
  - split.
    + intros H. destruct (f x) as [[|]| |] eqn:Hx; cbn [bind] in H; try discriminate H.
      constructor; [exact Hx | now apply IH].
    + intros H. inversion H as [|? ? Hx Hrest]; subst.
      rewrite Hx. cbn [bind]. now apply IH.
Qed.

Lemma some_false_iff {A : Type} (f : A -> result bool) (l : list A) :
  some f l = Ok false <-> Forall (fun x => f x = Ok false) l.
Proof.
  induction l as [|x rest IH]; cbn [some].
  - split; [constructor | reflexivity].
  - split.
    + intros H. destruct (f x) as [[|]| |] eqn:Hx; cbn [bind] in H; try discriminate H.
      constructor; [exact Hx | now apply IH].
    + intros H. inversion H as [|? ? Hx Hrest]; subst.
      rewrite Hx. cbn [bind]. now apply IH.
Qed.

Lemma some_true_iff {A : Type} (f : A -> result bool) (l : list A) :
  Forall (fun x => exists b, f x = Ok b) l ->
  (some f l = Ok true <-> Exists (fun x => f x = Ok true) l).
Proof.
  induction 1 as [|x rest [b Hx] _ IH]; cbn [some].
  - split; [discriminate | intros H; inversion H].
  - rewrite Hx. cbn [bind]. destruct b.
    + split; [intros _; now left | reflexivity].
    + rewrite IH. split; [intros H; now right|].
      intros H. inversion H as [? ? Hhead | ? ? Htail]; subst; [congruence | exact Htail].
Qed.

Lemma every_never_throws {A : Type} (f : A -> result bool) (l : list A) (e : exn) :
  Forall (fun x => f x <> Throw e) l -> every f l <> Throw e.
Proof.
  induction 1 as [|x rest Hx _ IH]; cbn [every]; [discriminate|].
  destruct (f x) as [[|]| |]; cbn [bind]; congruence.
Qed.

Lemma some_never_throws {A : Type} (f : A -> result bool) (l : list A) (e : exn) :
  Forall (fun x => f x <> Throw e) l -> some f l <> Throw e.
Proof.
  induction 1 as [|x rest Hx _ IH]; cbn [some]; [discriminate|].
  destruct (f x) as [[|]| |]; cbn [bind]; congruence.
Qed.

Lemma reduce_app {A B : Type} (f : A -> B -> result A) (l1 l2 : list B) :
  forall acc, reduce f (l1 ++ l2) acc = (acc' <- reduce f l1 acc ;; reduce f l2 acc').
Proof.
  induction l1 as [|x rest IH]; intros acc; cbn [app reduce bind]; [reflexivity|].
  destruct (f acc x); cbn [bind]; auto.
Qed.

(** *** Shared lemmas: paths *)

Lemma split_nonempty (sep : ascii) (s : string) : split sep s <> [].
Proof.
  destruct s as [|c rest]; cbn [split]; [discriminate|].
  destruct (Ascii.eqb c sep); [discriminate|].
  destruct (split sep rest); discriminate.
Qed.

Lemma split_app (sep : ascii) (a b : string) :
  split sep (a ++ String sep b) = (split sep a ++ split sep b)%list.
Proof.
  induction a as [|c rest IH]; cbn [append split].
  - rewrite Ascii.eqb_refl. reflexivity.
  - rewrite IH. destruct (Ascii.eqb c sep); [reflexivity|].
    pose proof (split_nonempty sep rest) as Hne.
    destruct (split sep rest) as [|head tail]; [congruence | reflexivity].
Qed.

Lemma reducer_non_object (acc : value) (part : string) :
  isObject acc = false -> reducer acc part = Ok VUndefined.
Proof.
  intros H. destruct acc; try discriminate H; cbn [reducer ToBoolean typeof];
    rewrite ?andb_false_r; reflexivity.
Qed.

Lemma reduce_undefined (parts : list string) :
  reduce reducer parts VUndefined = Ok VUndefined.
Proof.
  induction parts as [|part rest IH]; cbn [reduce]; [reflexivity|].
  rewrite reducer_non_object by reflexivity. exact IH.
Qed.

Lemma _getValueByKey_non_object (cart : value) (key : string) :
  isObject cart = false -> _getValueByKey cart key = Ok VUndefined.
Proof.
  intros H. unfold _getValueByKey.
  pose proof (split_nonempty "." key) as Hne.
  destruct (split "." key) as [|part rest]; [congruence|].
  cbn [reduce]. rewrite reducer_non_object by assumption. apply reduce_undefined.
Qed.

Lemma _getValueByKey_compose (cart : value) (a b : string) :
  _getValueByKey cart (a ++ "." ++ b)
  = (v <- _getValueByKey cart a ;; _getValueByKey v b).
Proof.
  unfold _getValueByKey. cbn [append]. rewrite split_app. apply reduce_app.
Qed.

Lemma reducer_object (acc : value) (part : string) :
  isObject acc = true -> isArray acc = false -> reducer acc part = get acc part.
Proof.
  intros Hobject Harray. destruct acc; try discriminate; reflexivity.
Qed.

Lemma get_present (props : list (string * value)) (key : string) (v : value) :
  NoDup (List.map fst props) -> In (key, v) props -> get (VObject props) key = Ok v.
Proof.
  unfold get. induction props as [|[k v'] rest IH]; intros Hnodup Hin; [destruct Hin|].
  cbn [List.map fst] in Hnodup. inversion Hnodup as [|? ? Hfresh Hrest]; subst.
  cbn [with_property]. destruct (String.eqb_spec k key) as [->|Hdiff].
  - destruct Hin as [Heq | Hin]; [congruence|].
    exfalso. apply Hfresh. apply (in_map fst) in Hin. exact Hin.
  - destruct Hin as [Heq | Hin]; [congruence|]. now apply IH.
Qed.

(** Where a path starts: its first segment, then the others. *)
Lemma _getValueByKey_first (cart : value) (key : string) :
  exists others,
    split "." key = first_segment key :: others
    /\ _getValueByKey cart key
       = (v <- reducer cart (first_segment key) ;; reduce reducer others v).
Proof.
  unfold _getValueByKey, first_segment.
  pose proof (split_nonempty "." key) as Hne.
  destruct (split "." key) as [|part others]; [congruence|].
  exists others. split; reflexivity.
Qed.

(** *** Shared lemmas: verdicts *)

Lemma bind_Ok_iff {A B : Type} (m : result A) (k : A -> result B) (b : B) :
  (x <- m ;; k x) = Ok b <-> exists x, m = Ok x /\ k x = Ok b.
Proof.
  destruct m as [x| |]; cbn [bind].
  - split; [intros H; now exists x | intros [y [Hy Hk]]; congruence].
  - split; [discriminate | intros [y [Hy _]]; discriminate].
  - split; [discriminate | intros [y [Hy _]]; discriminate].
Qed.

(** What an entry of the criteria asks of the record. *)
Lemma isEligible_true_iff (cart : value) (props : list (string * value)) :
  isEligible cart (VObject props) = Ok true
  <-> isObject cart = true
      /\ Forall (fun entry =>
                   exists v, _getValueByKey cart (fst entry) = Ok v
                             /\ _evaluateCondition v (snd entry) = Ok true) props.
Proof.
  unfold isEligible. destruct (isObject cart); cbn [negb orb isObject typeof is_null
    String.eqb Ascii.eqb Bool.eqb andb Object_entries bind].
  - rewrite every_true_iff. split.
    + intros H. split; [reflexivity|].
      eapply Forall_impl; [|exact H]. intros [key condition] Hentry.
      now apply bind_Ok_iff in Hentry.
    + intros [_ H]. eapply Forall_impl; [|exact H]. intros [key condition] Hentry.
      now apply bind_Ok_iff.
  - split; [discriminate | intros [H _]; discriminate].
Qed.

Lemma with_property_skip {R : Type} (found : value -> result R) (missing : result R)
    (before after : list (string * value)) (k key : string) (v : value) :
  k <> key ->
  with_property found missing (before ++ (k, v) :: after) key
  = with_property found missing (before ++ after) key.
Proof.
  intros Hdiff. induction before as [|[k' v'] rest IH]; cbn [app with_property].
  - apply String.eqb_neq in Hdiff. now rewrite Hdiff.
  - destruct (String.eqb k' key); [reflexivity | exact IH].
Qed.

Lemma _getValueByKey_skip (before after : list (string * value)) (k key : string) (v : value) :
  first_segment key <> k ->
  _getValueByKey (VObject (before ++ (k, v) :: after)) key
  = _getValueByKey (VObject (before ++ after)) key.
Proof.
  intros Hdiff.
  destruct (_getValueByKey_first (VObject (before ++ (k, v) :: after)) key)
    as [others [Hsplit ->]].
  destruct (_getValueByKey_first (VObject (before ++ after)) key)
    as [others' [Hsplit' ->]].
  assert (others' = others) as -> by congruence.
  rewrite !reducer_object by reflexivity. unfold get.
  rewrite with_property_skip by congruence. reflexivity.
Qed.

(** *** Shared lemmas: operators *)

Lemma logical_and_eq (cartValue : value) (ops : list (string * value)) :
  _evaluateOperation "and" cartValue (VObject ops)
  = every (fun entry => _evaluateOperation (fst entry) cartValue (snd entry)) ops.
Proof.
  rewrite _evaluateOperation_eq. cbn. apply every_ext. now intros [op value] _.
Qed.

Lemma logical_or_eq (cartValue : value) (ops : list (string * value)) :
  _evaluateOperation "or" cartValue (VObject ops)
  = some (fun entry => _evaluateOperation (fst entry) cartValue (snd entry)) ops.
Proof.
  rewrite _evaluateOperation_eq. cbn. apply some_ext. now intros [op value] _.
Qed.

Lemma leaf_eq (cartValue : value) (ops : list (string * value)) :
  isObject cartValue = false ->
  _evaluateCondition cartValue (VObject ops)
  = every (fun entry => _evaluateOperation (fst entry) cartValue (snd entry)) ops.
Proof.
  intros H. rewrite _evaluateCondition_leaf by (assumption || reflexivity).
  cbn [Object_entries bind]. apply every_ext. now intros [op value] _.
Qed.

Lemma SameValueZero_same (x : value) :
  isObject x = false -> SameValueZero x x = Ok true.
Proof.
  intros H. destruct x; try discriminate H; cbn [SameValueZero]; f_equal.
  - apply Bool.eqb_reflx.
  - unfold number_eq, PrimFloat.is_nan. destruct (PrimFloat.eqb n n); reflexivity.
  - apply String.eqb_refl.
Qed.

Lemma SameValueZero_primitive (element x : value) :
  isObject x = false -> exists b, SameValueZero element x = Ok b.
Proof.
  intros H. destruct x; try discriminate H; destruct element; eexists; reflexivity.
Qed.

Lemma includes_In (items : list value) (x : value) :
  isObject x = false -> In x items -> includes items x = Ok true.
Proof.
  intros Hx. unfold includes. induction items as [|element rest IH]; intros Hin;
    [destruct Hin|]. cbn [some].
  destruct Hin as [-> | Hin].
  - rewrite SameValueZero_same by assumption. reflexivity.
  - destruct (SameValueZero_primitive element x Hx) as [b ->]. cbn [bind].
    destruct b; [reflexivity | now apply IH].
Qed.

(** *** Shared lemmas: failures *)

Lemma not_TypeError (e : exn) :
  e <> TypeError -> exists message, e = InvalidCriteriaError message.
Proof. destruct e as [message|]; [now exists message | congruence]. Qed.

Lemma no_inherited_name_object (props : list (string * value)) :
  no_inherited_name (VObject props) = true ->
  Forall (fun entry => mem (fst entry) Object_prototype_names = false
                       /\ no_inherited_name (snd entry) = true) props.
Proof.
  cbn [no_inherited_name]. rewrite forallb_forall. intros H.
  apply Forall_forall. intros entry Hin. specialize (H entry Hin).
  apply andb_true_iff in H as [Hkey Hvalue]. split; [|exact Hvalue].
  now apply negb_true_iff.
Qed.

Lemma no_inherited_name_array (items : list value) :
  no_inherited_name (VArray items) = true ->
  Forall (fun v => no_inherited_name v = true) items.
Proof.
  cbn [no_inherited_name]. rewrite forallb_forall. intros H. now apply Forall_forall.
Qed.

Lemma no_inherited_name_primitive (v : value) :
  isObject v = false -> no_inherited_name v = true.
Proof. destruct v; try discriminate; reflexivity. Qed.

(** Without an own [toString] at any depth, the conversion to a string
    does not throw. *)
Lemma toString_throws_false (v : value) :
  no_inherited_name v = true -> toString_throws v = false.
Proof.
  revert v.
  apply (value_nested_ind
           (fun v => no_inherited_name v = true -> toString_throws v = false));
    try reflexivity.
  - intros items IH H. apply no_inherited_name_array in H. cbn [toString_throws].
    apply not_true_is_false. intros Hex. apply existsb_exists in Hex as [v [Hin Hv]].
    rewrite Forall_forall in IH, H. rewrite (IH v Hin (H v Hin)) in Hv. discriminate Hv.
  - intros props _ H. apply no_inherited_name_object in H. cbn [toString_throws].
    apply not_true_is_false. intros Hmem. apply mem_In in Hmem.
    apply in_map_iff in Hmem as [entry [Hkey Hin]].
    rewrite Forall_forall in H. destruct (H entry Hin) as [Hname _].
    rewrite Hkey in Hname. discriminate Hname.
Qed.

Lemma ToPrimitive_never_throws (v : value) (e : exn) :
  no_inherited_name v = true -> ToPrimitive v <> Throw e.
Proof.
  intros H. apply toString_throws_false in H.
  destruct v; cbn [ToPrimitive]; try discriminate; rewrite H; discriminate.
Qed.

Lemma ToNumber_never_throws (v : value) (e : exn) : ToNumber v <> Throw e.
Proof. destruct v; discriminate. Qed.

Lemma relational_never_throws (on_strings : string -> string -> bool)
    (on_numbers : float -> float -> bool) (x y : value) (e : exn) :
  no_inherited_name x = true -> no_inherited_name y = true ->
  relational on_strings on_numbers x y <> Throw e.
Proof.
  intros Hx Hy. unfold relational.
  pose proof (ToPrimitive_never_throws x e Hx) as Hpx.
  pose proof (ToPrimitive_never_throws y e Hy) as Hpy.
  destruct (ToPrimitive x) as [px| |]; cbn [bind]; try congruence.
  destruct (ToPrimitive y) as [py| |]; cbn [bind]; try congruence.
  pose proof (ToNumber_never_throws px e) as Hnx.
  pose proof (ToNumber_never_throws py e) as Hny.
  destruct px, py; try discriminate;
    (destruct (ToNumber _) as [nx| |]; cbn [bind]; try congruence;
     destruct (ToNumber _) as [ny| |]; cbn [bind]; congruence).
Qed.

Lemma _compareValues_never_throws (on_strings : string -> string -> bool)
    (on_numbers : float -> float -> bool) (a b : value) (e : exn) :
  no_inherited_name a = true -> no_inherited_name b = true ->
  _compareValues a b (relational on_strings on_numbers) <> Throw e.
Proof.
  intros Ha Hb.
  destruct a, b; cbn [_compareValues]; now apply relational_never_throws.
Qed.

Lemma SameValueZero_never_throws (x y : value) (e : exn) :
  SameValueZero x y <> Throw e.
Proof. destruct x, y; discriminate. Qed.

Lemma includes_never_throws (items : list value) (x : value) (e : exn) :
  includes items x <> Throw e.
Proof.
  apply some_never_throws. apply Forall_forall. intros element _.
  apply SameValueZero_never_throws.
Qed.

Lemma _comparePrimitiveValues_never_throws (a b : value) (e : exn) :
  _comparePrimitiveValues a b <> Throw e.
Proof. destruct a, b; discriminate. Qed.

Lemma Forall_entries_from (P : string -> value -> Prop) (items : list value) :
  Forall (fun v => forall i, P (index_key i) v) items ->
  forall i, Forall (fun entry => P (fst entry) (snd entry)) (entries_from i items).
Proof.
  induction 1 as [|v rest Hv _ IH]; intros i; cbn [entries_from]; constructor; auto.
  apply Hv.
Qed.

Lemma Object_entries_object (v : value) :
  isObject v = true -> exists entries, Object_entries v = Ok entries.
Proof. destruct v; try discriminate; intros _; eexists; reflexivity. Qed.

(** The key of an element of an array is no inherited name. *)
Lemma index_key_not_inherited (i : nat) :
  mem (index_key i) Object_prototype_names = false.
Proof. unfold index_key. destruct (Nat.to_uint i); reflexivity. Qed.

Lemma operations_inherited (op : string) :
  operations op = Inherited -> mem op Object_prototype_names = true.
Proof.
  unfold operations.
  repeat match goal with
         | |- context [String.eqb op ?name] =>
             destruct (String.eqb op name); [discriminate|]
         end.
  destruct (mem op Object_prototype_names); [reflexivity | discriminate].
Qed.

(** What remains of an operator once the registry has answered: no
    [TypeError], provided those of the operand's entries give none. *)
Lemma _evaluateOperation_step (cartValue v : value) (op : string) :
  no_inherited_name cartValue = true ->
  no_inherited_name v = true ->
  mem op Object_prototype_names = false ->
  (forall entries, Object_entries v = Ok entries ->
     Forall (fun entry =>
               _evaluateOperation (fst entry) cartValue (snd entry) <> Throw TypeError)
            entries) ->
  _evaluateOperation op cartValue v <> Throw TypeError.
Proof.
  intros Hcart Hv Hop Hentries. rewrite _evaluateOperation_eq.
  destruct (operations op) as [[]| |] eqn:Hlookup; cbn [call]; try discriminate;
    try (now apply _compareValues_never_throws).
  - destruct (isArray v); [apply includes_never_throws | discriminate].
  - unfold _evaluateLogicalOperation. destruct (isObject v) eqn:Hobject;
      cbn [negb]; [|discriminate].
    destruct (Object_entries_object v Hobject) as [entries Hv']. rewrite Hv'.
    cbn. apply every_never_throws. eapply Forall_impl; [|apply (Hentries _ Hv')].
    now intros [op' value'] H.
  - unfold _evaluateLogicalOperation. destruct (isObject v) eqn:Hobject;
      cbn [negb]; [|discriminate].
    destruct (Object_entries_object v Hobject) as [entries Hv']. rewrite Hv'.
    cbn. apply some_never_throws. eapply Forall_impl; [|apply (Hentries _ Hv')].
    now intros [op' value'] H.
  - apply operations_inherited in Hlookup. congruence.
Qed.

(** No operator ends in a [TypeError], when neither its name nor a key of
    its operand is inherited. *)
Lemma _evaluateOperation_no_TypeError (cartValue : value) :
  no_inherited_name cartValue = true ->
  forall value, no_inherited_name value = true ->
  forall op, mem op Object_prototype_names = false ->
             _evaluateOperation op cartValue value <> Throw TypeError.
Proof.
  intros Hcart.
  apply (value_nested_ind
           (fun v => no_inherited_name v = true ->
                     forall op, mem op Object_prototype_names = false ->
                                _evaluateOperation op cartValue v <> Throw TypeError)).
  - intros Hv op Hop. apply _evaluateOperation_step; try assumption. discriminate.
  - intros Hv op Hop. apply _evaluateOperation_step; try assumption. discriminate.
  - intros b Hv op Hop. apply _evaluateOperation_step; try assumption.
    intros entries [= <-]. constructor.
  - intros n Hv op Hop. apply _evaluateOperation_step; try assumption.
    intros entries [= <-]. constructor.
  - (* a string: [and] and [or] reject it before they read its entries *)
    intros s Hv op Hop. rewrite _evaluateOperation_eq.
    destruct (operations op) as [[]| |] eqn:Hlookup; cbn [call]; try discriminate;
      try (now apply _compareValues_never_throws).
    apply operations_inherited in Hlookup. congruence.
  - intros time Hv op Hop. apply _evaluateOperation_step; try assumption.
    intros entries [= <-]. constructor.
  - (* an array *)
    intros items IH Hv op Hop. apply _evaluateOperation_step; try assumption.
    cbn [Object_entries]. intros entries [= <-].
    apply (Forall_entries_from
             (fun key v => _evaluateOperation key cartValue v <> Throw TypeError)).
    apply no_inherited_name_array in Hv. rewrite Forall_forall in *.
    intros v Hin i. apply (IH v Hin (Hv v Hin)). apply index_key_not_inherited.
  - (* an object *)
    intros props IH Hv op Hop. apply _evaluateOperation_step; try assumption.
    cbn [Object_entries]. intros entries [= <-].
    apply no_inherited_name_object in Hv. rewrite Forall_forall in *.
    intros entry Hin. destruct (Hv entry Hin) as [Hkey Hvalue]. now apply IH.
Qed.

Lemma characters_shape (P : value -> Prop) (s : string) :
  (forall c, P (VString (String c EmptyString))) -> Forall P (characters s).
Proof. intros H. induction s as [|c rest IH]; cbn [characters]; constructor; auto. Qed.

(** A document without [null], [undefined] and inherited names has
    entries, and they are of the same shape. *)
Lemma Object_entries_shape (v : value) :
  no_nullish v = true ->
  no_inherited_name v = true ->
  exists entries,
    Object_entries v = Ok entries
    /\ Forall (fun entry => mem (fst entry) Object_prototype_names = false
                            /\ no_nullish (snd entry) = true
                            /\ no_inherited_name (snd entry) = true) entries.
Proof.
  intros Hnull Hname. destruct v; try discriminate Hnull; cbn [Object_entries];
    eexists; (split; [reflexivity|]); try constructor.
  - apply (Forall_entries_from
             (fun key v => mem key Object_prototype_names = false
                           /\ no_nullish v = true /\ no_inherited_name v = true)).
    apply characters_shape. intros c i.
    split; [apply index_key_not_inherited | split; reflexivity].
  - apply (Forall_entries_from
             (fun key v => mem key Object_prototype_names = false
                           /\ no_nullish v = true /\ no_inherited_name v = true)).
    apply no_inherited_name_array in Hname. cbn [no_nullish] in Hnull.
    rewrite forallb_forall in Hnull. rewrite Forall_forall in *.
    intros v Hin i. split; [apply index_key_not_inherited | split; auto].
  - apply no_inherited_name_object in Hname. cbn [no_nullish] in Hnull.
    rewrite forallb_forall in Hnull. rewrite Forall_forall in *.
    intros entry Hin. destruct (Hname entry Hin) as [Hkey Hvalue].
    split; [exact Hkey | split; [now apply Hnull | exact Hvalue]].
Qed.

Lemma get_cases (props : list (string * value)) (key : string) (v : value) :
  get (VObject props) key = Ok v -> v = VUndefined \/ In v (List.map snd props).
Proof.
  unfold get. induction props as [|[k v'] rest IH]; cbn [with_property List.map snd].
  - destruct (mem key Object_prototype_names); [discriminate|].
    intros [= <-]. now left.
  - destruct (String.eqb k key).
    + intros [= <-]. right. now left.
    + intros H. destruct (IH H) as [-> | Hin]; [now left | right; now right].
Qed.

(** A value that is no object never ends in a [TypeError]. *)
Lemma _evaluateCondition_primitive_no_TypeError (cartValue condition : value) :
  isObject cartValue = false ->
  no_nullish condition = true ->
  no_inherited_name condition = true ->
  _evaluateCondition cartValue condition <> Throw TypeError.
Proof.
  intros Hvalue Hnull Hname. destruct (isObject condition) eqn:Hcondition.
  - rewrite _evaluateCondition_leaf by assumption.
    destruct (Object_entries_shape condition Hnull Hname) as [entries [-> Hentries]].
    cbn [bind]. apply every_never_throws.
    eapply Forall_impl; [|exact Hentries]. intros [op value] [Hop [_ Hoperand]].
    apply _evaluateOperation_no_TypeError; try assumption.
    now apply no_inherited_name_primitive.
  - rewrite _evaluateCondition_eq, Hvalue, Hcondition. cbn [negb andb].
    apply _comparePrimitiveValues_never_throws.
Qed.

(** Matching a condition that holds neither [null], nor [undefined], nor an
    inherited name never ends in a [TypeError]. *)
Lemma _evaluateCondition_no_TypeError (cartValue : value) :
  forall condition,
    no_nullish condition = true ->
    no_inherited_name condition = true ->
    _evaluateCondition cartValue condition <> Throw TypeError.
Proof.
  revert cartValue.
  apply (value_nested_ind
           (fun cartValue => forall condition,
              no_nullish condition = true ->
              no_inherited_name condition = true ->
              _evaluateCondition cartValue condition <> Throw TypeError));
    try (intros; apply _evaluateCondition_primitive_no_TypeError;
         (reflexivity || assumption)).
  - (* a date *)
    intros time condition Hnull Hname.
    rewrite _evaluateCondition_object by reflexivity.
    destruct (Object_entries_shape condition Hnull Hname) as [entries [-> _]].
    cbn [bind]. apply every_never_throws. apply Forall_forall.
    intros [key value] _. cbn [get bind]. destruct (isArray value); [|discriminate].
    apply some_never_throws. apply Forall_forall. intros sub _. discriminate.
  - (* an array *)
    intros items IH condition Hnull Hname. rewrite _evaluateCondition_array.
    apply some_never_throws. eapply Forall_impl; [|exact IH].
    intros v Hv. now apply Hv.
  - (* an object *)
    intros props IH condition Hnull Hname.
    rewrite _evaluateCondition_object by reflexivity.
    destruct (Object_entries_shape condition Hnull Hname) as [entries [-> Hentries]].
    cbn [bind]. apply every_never_throws.
    eapply Forall_impl; [|exact Hentries].
    intros [key value] [_ [Hvalue Hvalue']]. cbn [snd] in Hvalue, Hvalue'.
    assert (Hat : forall sub, no_nullish sub = true -> no_inherited_name sub = true ->
              (property <- get (VObject props) key ;; _evaluateCondition property sub)
              <> Throw TypeError).
    { intros sub Hsub Hsub'.
      destruct (get (VObject props) key) as [property| |] eqn:Hget;
        cbn [bind]; try discriminate.
      - destruct (get_cases props key property Hget) as [-> | Hin].
        + now apply _evaluateCondition_primitive_no_TypeError.
        + rewrite Forall_forall in IH. apply in_map_iff in Hin as [[k v] [<- Hin]].
          now apply (IH (k, v)).
      - intros [= He]. unfold get in Hget.
        now apply with_property_Ok_never_throws in Hget. }
    destruct value; cbn [isArray]; try now apply Hat.
    cbn [elements]. apply some_never_throws. apply Forall_forall. intros sub Hin.
    apply no_inherited_name_array in Hvalue'. cbn [no_nullish] in Hvalue.
    rewrite forallb_forall in Hvalue. rewrite Forall_forall in Hvalue'. auto.
Qed.

Lemma isEligible_no_TypeError (cart criteria : value) :
  no_nullish criteria = true ->
  no_inherited_name criteria = true ->
  isEligible cart criteria <> Throw TypeError.
Proof.
  intros Hnull Hname. unfold isEligible.
  destruct (negb (isObject cart) || negb (isObject criteria)); [discriminate|].
  destruct (Object_entries_shape criteria Hnull Hname) as [entries [-> Hentries]].
  cbn [bind]. apply every_never_throws.
  eapply Forall_impl; [|exact Hentries]. intros [key condition] [_ [Hc Hc']].
  destruct (_getValueByKey cart key) as [v| |] eqn:Hpath; cbn [bind];
    [now apply _evaluateCondition_no_TypeError | | discriminate].
  now apply _getValueByKey_never_throws in Hpath.
Qed.

Lemma every_throws {A : Type} (f : A -> result bool) (before after : list A)
    (x : A) (e : exn) :
  Forall (fun y => f y = Ok true) before ->
  f x = Throw e ->
  every f (before ++ x :: after)%list = Throw e.
Proof.
  intros Hbefore Hx. induction Hbefore as [|y rest Hy _ IH]; cbn [app every].
  - rewrite Hx. reflexivity.
  - rewrite Hy. cbn [bind]. exact IH.
Qed.

(** *** Shared lemmas: numbers *)

(** No number is below, above or equal to [NaN]. *)
Lemma ltb_nan_r (n : float) : PrimFloat.ltb n nan = false.
Proof.
  rewrite ltb_spec. unfold SFltb.
  replace (Prim2SF nan) with S754_nan by reflexivity.
  destruct (Prim2SF n); reflexivity.
Qed.

Lemma ltb_nan_l (n : float) : PrimFloat.ltb nan n = false.
Proof.
  rewrite ltb_spec. unfold SFltb.
  replace (Prim2SF nan) with S754_nan by reflexivity.
  destruct (Prim2SF n); reflexivity.
Qed.

Lemma leb_nan_r (n : float) : PrimFloat.leb n nan = false.
Proof.
  rewrite leb_spec. unfold SFleb.
  replace (Prim2SF nan) with S754_nan by reflexivity.
  destruct (Prim2SF n); reflexivity.
Qed.

Lemma leb_nan_l (n : float) : PrimFloat.leb nan n = false.
Proof.
  rewrite leb_spec. unfold SFleb.
  replace (Prim2SF nan) with S754_nan by reflexivity.
  destruct (Prim2SF n); reflexivity.
Qed.

(** *** Shared lemmas: arrays *)

Lemma flat_no_arrays (l : list value) :
  Forall (fun v => isArray v = false) l -> flat l = l.
Proof.
  induction 1 as [|v rest Hv _ IH]; cbn [flat]; [reflexivity|].
  destruct v; try discriminate Hv; now rewrite IH.
Qed.

Lemma some_of_map {A : Type} (g : A -> result value) (h : value -> result bool)
    (items : list A) :
  forall mapped, map g items = Ok mapped ->
                 some h mapped = some (fun item => v <- g item ;; h v) items.
Proof.
  induction items as [|item rest IH]; cbn [map some]; intros mapped Hmap.
  - injection Hmap as <-. reflexivity.
  - destruct (g item) as [v| |]; cbn [bind] in *; try discriminate Hmap.
    destruct (map g rest) as [vs| |]; cbn [bind] in *; try discriminate Hmap.
    injection Hmap as <-. cbn [some].
    destruct (h v) as [[|]| |]; cbn [bind]; auto.
Qed.

(** What [flat] keeps: the elements of the arrays and the other values. *)
Lemma flat_In (l : list value) (v : value) :
  In v (flat l)
  <-> exists m, In m l /\ (if isArray m then In v (elements m) else v = m).
Proof.
  induction l as [|m rest IH]; cbn [flat].
  - split; [intros [] | intros [m [[] _]]].
  - assert (Hrest : (exists m', In m' rest
                       /\ (if isArray m' then In v (elements m') else v = m'))
                    -> exists m', In m' (m :: rest)
                       /\ (if isArray m' then In v (elements m') else v = m')).
    { intros [m' [Hin H]]. exists m'. split; [now right | exact H]. }
    destruct m as [| | b | n | s | time | inner | props];
      try (cbn [In]; rewrite IH; split;
           [ intros [<- | H]; [eexists; split; [now left | reflexivity] | now apply Hrest]
           | intros [m' [[<- | Hin] H]];
             [left; cbn [isArray] in H; now symmetry | right; now exists m'] ]).
    rewrite in_app_iff, IH. split.
    + intros [H | H]; [exists (VArray inner); split; [now left | exact H] | now apply Hrest].
    + intros [m' [[<- | Hin] H]]; [now left | right; now exists m'].
Qed.

(** *** Broadcast *)

(** C6.  A path broadcasts over an array and the results are matched
    existentially.  When [a] resolves to an array and every item resolves
    under the segment [part], the path [a.part] resolves to the array of the
    items' values, flattened one level (it holds the elements of the values
    that are arrays and the other values themselves), and the criteria
    [{"a.part": condition}] have the outcome of [some] over those values:
    [false] exactly when every value fails the condition and, when every
    value gives an answer, [true] exactly when one of them matches.  For
    [{items: [{qty: 1}, {qty: 5}]}] this gives [true] on
    [{"items.qty": {"gte": 3}}] and [false] on [{"items.qty": {"gte": 10}}]
    (the witness). *)
Theorem path_broadcast_existential
    (cart : value) (a part : string) (items mapped : list value) (condition : value) :
  isObject cart = true ->
  split "." part = [part] ->
  _getValueByKey cart a = Ok (VArray items) ->
  map (fun item => _getValueByKey item part) items = Ok mapped ->
  _getValueByKey cart (a ++ "." ++ part) = Ok (VArray (flat mapped))
  /\ (forall v, In v (flat mapped)
                <-> exists m, In m mapped
                              /\ (if isArray m then In v (elements m) else v = m))
  /\ isEligible cart (VObject [(a ++ "." ++ part, condition)])
     = some (fun v => _evaluateCondition v condition) (flat mapped)
  /\ (isEligible cart (VObject [(a ++ "." ++ part, condition)]) = Ok false
      <-> Forall (fun v => _evaluateCondition v condition = Ok false) (flat mapped))
  /\ (Forall (fun v => exists b, _evaluateCondition v condition = Ok b) (flat mapped) ->
      (isEligible cart (VObject [(a ++ "." ++ part, condition)]) = Ok true
       <-> Exists (fun v => _evaluateCondition v condition = Ok true) (flat mapped))).
Proof.
  intros Hcart Hsegment Ha Hmap.
  assert (Hpath : _getValueByKey cart (a ++ "." ++ part) = Ok (VArray (flat mapped))).
  { rewrite _getValueByKey_compose, Ha. cbn [bind].
    rewrite _getValueByKey_segment, reducer_eq by assumption.
    cbn [isArray elements]. rewrite Hmap. reflexivity. }
  assert (Heligible : isEligible cart (VObject [(a ++ "." ++ part, condition)])
                      = some (fun v => _evaluateCondition v condition) (flat mapped)).
  { unfold isEligible. rewrite Hcart.
    cbn [negb orb isObject typeof is_null String.eqb Ascii.eqb Bool.eqb andb
         Object_entries bind every].
    rewrite Hpath. cbn [bind]. rewrite bind_verdict. apply _evaluateCondition_array. }
  split; [exact Hpath|]. split; [apply flat_In|].
  split; [exact Heligible|]. rewrite Heligible. split.
  - apply some_false_iff.
  - apply some_true_iff.
Qed.

Lemma path_broadcast_existential_witness :
  isEligible cart_items (criteria_qty_gte 3) = Ok true
  /\ isEligible cart_items (criteria_qty_gte 10) = Ok false
  /\ _getValueByKey cart_nested_items "items.qty"
     = Ok (VArray [VNumber 1; VNumber 5; VNumber 7]).
Proof.
  split; [|split].
  - exact (eq_trans
             (proj1 (proj2 (proj2 (path_broadcast_existential cart_items "items" "qty"
                              [VObject [("qty", VNumber 1)]; VObject [("qty", VNumber 5)]]
                              [VNumber 1; VNumber 5] (VObject [("gte", VNumber 3)])
                              eq_refl eq_refl eq_refl eq_refl))))
             eq_refl).
  - exact (eq_trans
             (proj1 (proj2 (proj2 (path_broadcast_existential cart_items "items" "qty"
                              [VObject [("qty", VNumber 1)]; VObject [("qty", VNumber 5)]]
                              [VNumber 1; VNumber 5] (VObject [("gte", VNumber 10)])
                              eq_refl eq_refl eq_refl eq_refl))))
             eq_refl).
  - exact (proj1 (path_broadcast_existential cart_nested_items "items" "qty"
                    [VObject [("qty", VArray [VNumber 1; VNumber 5])];
                     VObject [("qty", VNumber 7)]]
                    [VArray [VNumber 1; VNumber 5]; VNumber 7] VNull
                    eq_refl eq_refl eq_refl eq_refl)).
Defined.

(** *** Paths *)

(** X1.  Resolving a path never throws, whatever the record and the path:
    the callback reads a property only of a value that is a non-null
    object. *)
Theorem path_resolution_never_throws (cart : value) (key : string) (e : exn) :
  _getValueByKey cart key <> Throw e.
Proof. apply _getValueByKey_never_throws. Qed.

(** X2.  A dotted path is resolved piecewise: [a.b] resolves as [b] from
    what [a] resolves to. *)
Theorem path_resolution_composes (cart : value) (a b : string) :
  _getValueByKey cart (a ++ "." ++ b)
  = (v <- _getValueByKey cart a ;; _getValueByKey v b).
Proof. apply _getValueByKey_compose. Qed.

(** X3.  Once a prefix of a path resolves to a value that is no object
    ([undefined], [null], a boolean, a number, a string), every longer path
    resolves to [undefined]. *)
Theorem path_through_primitive_is_undefined (cart v : value) (a b : string) :
  _getValueByKey cart a = Ok v ->
  isObject v = false ->
  _getValueByKey cart (a ++ "." ++ b) = Ok VUndefined.
Proof.
  intros Ha Hv. rewrite _getValueByKey_compose, Ha. cbn [bind].
  now apply _getValueByKey_non_object.
Qed.

Lemma path_through_primitive_is_undefined_witness :
  _getValueByKey cart_age ("age" ++ "." ++ "unit") = Ok VUndefined.
Proof.
  apply (path_through_primitive_is_undefined cart_age (VNumber 20) "age" "unit");
    reflexivity.
Defined.

(** X4.  A path of one segment that names a property of the record resolves
    to the value of that property. *)
Theorem path_to_own_property (props : list (string * value)) (key : string) (v : value) :
  split "." key = [key] ->
  NoDup (List.map fst props) ->
  In (key, v) props ->
  _getValueByKey (VObject props) key = Ok v.
Proof.
  intros Hsegment Hnodup Hin.
  rewrite _getValueByKey_segment by assumption.
  rewrite reducer_object by reflexivity. now apply get_present.
Qed.

Lemma path_to_own_property_witness :
  _getValueByKey cart_no_items "items" = Ok (VArray []).
Proof.
  apply (path_to_own_property [("a", VNumber 1); ("items", VArray [])] "items" (VArray [])).
  - reflexivity.
  - repeat constructor; simpl; intuition discriminate.
  - simpl. tauto.
Defined.

(** X5.  A path whose first segment names no property of the record, own
    or inherited, resolves to [undefined], however long the path. *)
Theorem path_to_absent_property (props : list (string * value)) (key : string) :
  mem (first_segment key) (List.map fst props) = false ->
  mem (first_segment key) Object_prototype_names = false ->
  _getValueByKey (VObject props) key = Ok VUndefined.
Proof.
  intros Hown Hinherited.
  destruct (_getValueByKey_first (VObject props) key) as [others [_ ->]].
  rewrite reducer_object by reflexivity.
  rewrite get_absent by assumption. cbn [bind]. apply reduce_undefined.
Qed.

Lemma path_to_absent_property_witness :
  _getValueByKey cart_age "address.city" = Ok VUndefined.
Proof.
  apply (path_to_absent_property [("age", VNumber 20)] "address.city"); reflexivity.
Defined.

(** *** Verdicts *)

(** X6.  [isEligible] answers [true] exactly when the record is an object
    and every entry of the criteria holds: its path resolves and the value
    matches its condition. *)
Theorem eligible_iff_every_entry_holds (cart : value) (props : list (string * value)) :
  isEligible cart (VObject props) = Ok true
  <-> isObject cart = true
      /\ Forall (fun entry =>
                   exists v, _getValueByKey cart (fst entry) = Ok v
                             /\ _evaluateCondition v (snd entry) = Ok true) props.
Proof. apply isEligible_true_iff. Qed.

(** X7.  A record that is eligible stays eligible for any criteria made of
    some of the same entries, in any order. *)
Theorem eligible_for_fewer_entries (cart : value) (props props' : list (string * value)) :
  incl props' props ->
  isEligible cart (VObject props) = Ok true ->
  isEligible cart (VObject props') = Ok true.
Proof.
  intros Hincl H. apply isEligible_true_iff in H as [Hcart Hall].
  apply isEligible_true_iff. split; [exact Hcart|].
  rewrite Forall_forall in *. intros entry Hentry. apply Hall, Hincl, Hentry.
Qed.

Lemma eligible_for_fewer_entries_witness :
  isEligible cart_items (VObject [("items.qty", VObject [("gte", VNumber 3)])]) = Ok true.
Proof.
  apply (eligible_for_fewer_entries cart_items
           [("items", VObject []); ("items.qty", VObject [("gte", VNumber 3)])]
           [("items.qty", VObject [("gte", VNumber 3)])]).
  - intros entry [<- | []]. right. left. reflexivity.
  - reflexivity.
Defined.

(** X8.  A property of the record that no path of the criteria starts with
    has no effect on the outcome. *)
Theorem unmentioned_property_is_ignored
    (before after entries : list (string * value)) (k : string) (v : value) :
  Forall (fun entry => first_segment (fst entry) <> k) entries ->
  isEligible (VObject (before ++ (k, v) :: after)) (VObject entries)
  = isEligible (VObject (before ++ after)) (VObject entries).
Proof.
  intros Hentries. unfold isEligible.
  cbn [isObject typeof is_null String.eqb Ascii.eqb Bool.eqb andb negb orb
       Object_entries bind].
  apply every_ext. intros [key condition] Hin.
  rewrite Forall_forall in Hentries. specialize (Hentries _ Hin). cbn [fst] in Hentries.
  now rewrite _getValueByKey_skip.
Qed.

Lemma unmentioned_property_is_ignored_witness :
  isEligible (VObject [("age", VNumber 20); ("name", VString "x")])
             (VObject [("age", VObject [("gte", VNumber 18)])])
  = isEligible (VObject [("age", VNumber 20)])
               (VObject [("age", VObject [("gte", VNumber 18)])]).
Proof.
  apply (unmentioned_property_is_ignored [("age", VNumber 20)] []
           [("age", VObject [("gte", VNumber 18)])] "name" (VString "x")).
  repeat constructor. cbn. discriminate.
Defined.

(** *** Operators *)

(** X9.  [and] over a mapping of operators answers [true] exactly when
    every operator of the mapping does, and [or] answers [false] exactly
    when every operator of the mapping does. *)
Theorem logical_operators_quantify (cartValue : value) (ops : list (string * value)) :
  (_evaluateOperation "and" cartValue (VObject ops) = Ok true
   <-> Forall (fun entry =>
                 _evaluateOperation (fst entry) cartValue (snd entry) = Ok true) ops)
  /\ (_evaluateOperation "or" cartValue (VObject ops) = Ok false
      <-> Forall (fun entry =>
                    _evaluateOperation (fst entry) cartValue (snd entry) = Ok false) ops).
Proof.
  split.
  - rewrite logical_and_eq. apply every_true_iff.
  - rewrite logical_or_eq. apply some_false_iff.
Qed.

(** X10.  The operators of a leaf condition are already a conjunction:
    wrapping them in [and] changes nothing, whatever they evaluate to. *)
Theorem and_of_leaf_is_leaf (cartValue : value) (ops : list (string * value)) :
  isObject cartValue = false ->
  _evaluateCondition cartValue (VObject [("and", VObject ops)])
  = _evaluateCondition cartValue (VObject ops).
Proof.
  intros H. rewrite !leaf_eq by assumption. cbn [every fst snd].
  rewrite logical_and_eq. apply bind_verdict.
Qed.

Lemma and_of_leaf_is_leaf_witness :
  _evaluateCondition (VNumber 40)
    (VObject [("and", VObject [("gte", VNumber 18); ("lte", VNumber 65)])])
  = _evaluateCondition (VNumber 40) (VObject [("gte", VNumber 18); ("lte", VNumber 65)]).
Proof.
  apply (and_of_leaf_is_leaf (VNumber 40) [("gte", VNumber 18); ("lte", VNumber 65)]).
  reflexivity.
Defined.

(** X11.  [and] and [or] with an operand that is no object ([undefined],
    [null], a boolean, a number, a string) throw [InvalidCriteriaError] with
    a message that names the operator. *)
Theorem logical_operand_must_be_object (cartValue operand : value) :
  isObject operand = false ->
  _evaluateOperation "and" cartValue operand
  = Throw (InvalidCriteriaError
             "Conditions for logical operation 'and' must be an object")
  /\ _evaluateOperation "or" cartValue operand
     = Throw (InvalidCriteriaError
                "Conditions for logical operation 'or' must be an object").
Proof.
  intros H. rewrite !_evaluateOperation_eq. cbn [operations String.eqb Ascii.eqb
    Bool.eqb call]. unfold _evaluateLogicalOperation. rewrite H. split; reflexivity.
Qed.

Lemma logical_operand_must_be_object_witness :
  _evaluateOperation "and" (VNumber 40) (VNumber 18)
  = Throw (InvalidCriteriaError
             "Conditions for logical operation 'and' must be an object")
  /\ _evaluateOperation "or" (VNumber 40) (VNumber 18)
     = Throw (InvalidCriteriaError
                "Conditions for logical operation 'or' must be an object").
Proof.
  apply (logical_operand_must_be_object (VNumber 40) (VNumber 18)). reflexivity.
Defined.

(** X12.  [in] answers [true] when its operand is an array that holds the
    value, for every value that is no object; no coercion and no error is
    involved, whatever else the array holds. *)
Theorem in_operator_finds_member (cartValue : value) (items : list value) :
  isObject cartValue = false ->
  In cartValue items ->
  _evaluateOperation "in" cartValue (VArray items) = Ok true.
Proof.
  intros Hvalue Hin. rewrite _evaluateOperation_eq.
  cbn [operations String.eqb Ascii.eqb Bool.eqb call isArray elements].
  now apply includes_In.
Qed.

Lemma in_operator_finds_member_witness :
  _evaluateOperation "in" (VString "blue")
    (VArray [VObject []; VString "red"; VString "blue"]) = Ok true.
Proof.
  apply (in_operator_finds_member (VString "blue")
           [VObject []; VString "red"; VString "blue"]).
  - reflexivity.
  - simpl. tauto.
Defined.

(** X13.  [in] with an operand that is no array answers [false], without
    an error, whatever the value. *)
Theorem in_operator_needs_array (cartValue operand : value) :
  isArray operand = false ->
  _evaluateOperation "in" cartValue operand = Ok false.
Proof.
  intros H. rewrite _evaluateOperation_eq.
  cbn [operations String.eqb Ascii.eqb Bool.eqb call]. now rewrite H.
Qed.

Lemma in_operator_needs_array_witness :
  _evaluateOperation "in" (VString "red") (VString "red") = Ok false.
Proof.
  apply (in_operator_needs_array (VString "red") (VString "red")). reflexivity.
Defined.

(** *** Failures *)

(** X14.  An operator that fails fails with [InvalidCriteriaError], and
    never with a [TypeError], when its name is not inherited from
    [Object.prototype] and no key of its operand or of the value, at any
    depth, is one. *)
Theorem operators_fail_with_InvalidCriteriaError
    (op : string) (cartValue value : value) (e : exn) :
  mem op Object_prototype_names = false ->
  no_inherited_name value = true ->
  no_inherited_name cartValue = true ->
  _evaluateOperation op cartValue value = Throw e ->
  exists message, e = InvalidCriteriaError message.
Proof.
  intros Hop Hvalue Hcart H. apply not_TypeError. intros ->.
  now apply (_evaluateOperation_no_TypeError cartValue Hcart value Hvalue op Hop).
Qed.

Lemma operators_fail_with_InvalidCriteriaError_witness :
  exists message,
    InvalidCriteriaError "Conditions for logical operation 'or' must be an object"
    = InvalidCriteriaError message.
Proof.
  apply (operators_fail_with_InvalidCriteriaError "and" (VNumber 20)
           (VObject [("gte", VNumber 18); ("or", VNumber 1)])); reflexivity.
Defined.

(** X15.  When the criteria hold neither [null], nor [undefined], nor a
    key inherited from [Object.prototype], at any depth, [isEligible] fails
    with [InvalidCriteriaError] or not at all, whatever the record. *)
Theorem eligibility_fails_with_InvalidCriteriaError (cart criteria : value) (e : exn) :
  no_nullish criteria = true ->
  no_inherited_name criteria = true ->
  isEligible cart criteria = Throw e ->
  exists message, e = InvalidCriteriaError message.
Proof.
  intros Hnull Hname H. apply not_TypeError. intros ->.
  now apply (isEligible_no_TypeError cart criteria Hnull Hname).
Qed.

Lemma eligibility_fails_with_InvalidCriteriaError_witness :
  exists message,
    InvalidCriteriaError "Unsupported operation: foo" = InvalidCriteriaError message.
Proof.
  apply (eligibility_fails_with_InvalidCriteriaError cart_age criteria_age_foo);
    reflexivity.
Defined.

(** The inputs those conditions keep out: an inherited operator name and an
    operand whose own [toString] is data do end in a [TypeError]. *)
Lemma inherited_names_end_in_TypeError :
  isEligible cart_age (VObject [("age", VObject [("__proto__", VNumber 1)])])
  = Throw TypeError
  /\ isEligible cart_age
       (VObject [("age", VObject [("gt", VObject [("toString", VNumber 5)])])])
     = Throw TypeError.
Proof. split; reflexivity. Qed.

(** X22.  An entry of the criteria that does not hold decides the verdict:
    when the entries before it have each given an answer, [isEligible]
    returns [false], and the entries after it are not evaluated, whatever
    they are. *)
Theorem first_false_entry_decides
    (cart v : value) (before after : list (string * value))
    (key : string) (condition : value) :
  isObject cart = true ->
  Forall (fun entry =>
            exists b, (value <- _getValueByKey cart (fst entry) ;;
                       _evaluateCondition value (snd entry)) = Ok b) before ->
  _getValueByKey cart key = Ok v ->
  _evaluateCondition v condition = Ok false ->
  isEligible cart (VObject (before ++ (key, condition) :: after)) = Ok false.
Proof.
  intros Hcart Hbefore Hpath Hcondition. unfold isEligible. rewrite Hcart.
  cbn [negb orb isObject typeof is_null String.eqb Ascii.eqb Bool.eqb andb
       Object_entries bind].
  apply every_decided.
  - eapply Forall_impl; [|exact Hbefore]. now intros [k c] Hb.
  - rewrite Hpath. exact Hcondition.
Qed.

Lemma first_false_entry_decides_witness :
  isEligible (VObject [("age", VNumber 20); ("n", VNumber 1)])
    (VObject ([("age", VObject [("gte", VNumber 18)])]
              ++ ("n", VObject [("gte", VNumber 30)])
              :: [("z", VObject [("foo", VNumber 1)])])) = Ok false.
Proof.
  apply (first_false_entry_decides (VObject [("age", VNumber 20); ("n", VNumber 1)])
           (VNumber 1)
           [("age", VObject [("gte", VNumber 18)])]
           [("z", VObject [("foo", VNumber 1)])]
           "n" (VObject [("gte", VNumber 30)])); try reflexivity.
  constructor; [exists true; reflexivity | constructor].
Defined.

(** X23.  An entry of the criteria that fails with an error makes
    [isEligible] fail with that error when every entry before it holds. *)
Theorem error_of_entry_propagates
    (cart v : value) (before after : list (string * value))
    (key : string) (condition : value) (e : exn) :
  isObject cart = true ->
  Forall (fun entry =>
            (value <- _getValueByKey cart (fst entry) ;;
             _evaluateCondition value (snd entry)) = Ok true) before ->
  _getValueByKey cart key = Ok v ->
  _evaluateCondition v condition = Throw e ->
  isEligible cart (VObject (before ++ (key, condition) :: after)) = Throw e.
Proof.
  intros Hcart Hbefore Hpath Hcondition. unfold isEligible. rewrite Hcart.
  cbn [negb orb isObject typeof is_null String.eqb Ascii.eqb Bool.eqb andb
       Object_entries bind].
  apply every_throws.
  - eapply Forall_impl; [|exact Hbefore]. now intros [k c] Hb.
  - rewrite Hpath. exact Hcondition.
Qed.

Lemma error_of_entry_propagates_witness :
  isEligible (VObject [("age", VNumber 20); ("n", VNumber 1)])
    (VObject ([("age", VObject [("gte", VNumber 18)])]
              ++ ("n", VObject [("foo", VNumber 1)])
              :: [("z", VObject [("gte", VNumber 30)])]))
  = Throw (InvalidCriteriaError "Unsupported operation: foo").
Proof.
  apply (error_of_entry_propagates (VObject [("age", VNumber 20); ("n", VNumber 1)])
           (VNumber 1)
           [("age", VObject [("gte", VNumber 18)])]
           [("z", VObject [("gte", VNumber 30)])]
           "n" (VObject [("foo", VNumber 1)])); try reflexivity.
  constructor; [reflexivity | constructor].
Defined.

(** *** Conditions *)

(** X24.  The empty condition mapping matches every value that is no
    array, [undefined] included: a criteria entry [{}] holds on a missing
    field. *)
Theorem empty_condition_matches (cartValue : value) :
  isArray cartValue = false ->
  _evaluateCondition cartValue (VObject []) = Ok true.
Proof.
  intros Harray. destruct (isObject cartValue) eqn:Hobject.
  - rewrite _evaluateCondition_object by assumption. reflexivity.
  - rewrite _evaluateCondition_leaf by (assumption || reflexivity). reflexivity.
Qed.

Lemma empty_condition_matches_witness :
  _evaluateCondition VUndefined (VObject []) = Ok true.
Proof. apply (empty_condition_matches VUndefined). reflexivity. Defined.

(** X16.  A dotted path and a nested condition say the same: when [a]
    resolves to an object that is no array and the condition [c] is no
    array, the criteria [{"a.b": c}] and [{"a": {"b": c}}] have the same
    outcome. *)
Theorem dotted_path_is_nested_condition (cart container c : value) (a b : string) :
  split "." b = [b] ->
  _getValueByKey cart a = Ok container ->
  isObject container = true ->
  isArray container = false ->
  isArray c = false ->
  isEligible cart (VObject [(a ++ "." ++ b, c)])
  = isEligible cart (VObject [(a, VObject [(b, c)])]).
Proof.
  intros Hsegment Ha Hobject Harray Hc. unfold isEligible.
  cbn [isObject typeof is_null String.eqb Ascii.eqb Bool.eqb andb negb
       Object_entries bind every].
  destruct (negb _ || false); [reflexivity|]. f_equal.
  rewrite _getValueByKey_compose, Ha. cbn [bind].
  rewrite _getValueByKey_segment, reducer_object by assumption.
  rewrite _evaluateCondition_object by assumption.
  cbn [Object_entries bind every]. rewrite Hc. now rewrite bind_verdict.
Qed.

Lemma dotted_path_is_nested_condition_witness :
  isEligible cart_user (VObject [("user" ++ "." ++ "age", VObject [("gte", VNumber 18)])])
  = isEligible cart_user (VObject [("user", VObject [("age", VObject [("gte", VNumber 18)])])]).
Proof.
  apply (dotted_path_is_nested_condition cart_user (VObject [("age", VNumber 25)])
           (VObject [("gte", VNumber 18)]) "user" "age"); reflexivity.
Defined.

(** X17.  [undefined], what a missing field resolves to, is neither below
    nor above any number: the four ordering operators answer [false] on it,
    on either side. *)
Theorem undefined_is_unordered (op : string) (n : float) :
  In op ["gt"; "lt"; "gte"; "lte"] ->
  _evaluateOperation op VUndefined (VNumber n) = Ok false
  /\ _evaluateOperation op (VNumber n) VUndefined = Ok false.
Proof.
  intros Hop. cbn [In] in Hop.
  destruct Hop as [<- | [<- | [<- | [<- | []]]]]; cbn;
    rewrite ?ltb_nan_r, ?ltb_nan_l, ?leb_nan_r, ?leb_nan_l; split; reflexivity.
Qed.

Lemma undefined_is_unordered_witness :
  _evaluateOperation "gte" VUndefined (VNumber 18) = Ok false
  /\ _evaluateOperation "gte" (VNumber 18) VUndefined = Ok false.
Proof.
  apply (undefined_is_unordered "gte" 18). simpl. tauto.
Defined.

(** X18.  A path of one segment through an array is matched on the items:
    when every item resolves and none resolves to an array, the array
    matches a condition as soon as one item's resolved value does. *)
Theorem broadcast_matches_some_item
    (items mapped : list value) (part : string) (condition : value) :
  split "." part = [part] ->
  map (fun item => _getValueByKey item part) items = Ok mapped ->
  Forall (fun v => isArray v = false) mapped ->
  (v <- _getValueByKey (VArray items) part ;; _evaluateCondition v condition)
  = some (fun item => v <- _getValueByKey item part ;; _evaluateCondition v condition)
         items.
Proof.
  intros Hsegment Hmap Hflat.
  rewrite _getValueByKey_segment, reducer_eq by assumption.
  cbn [isArray elements]. rewrite Hmap. cbn [bind].
  rewrite flat_no_arrays, _evaluateCondition_array by assumption.
  now apply some_of_map.
Qed.

Lemma broadcast_matches_some_item_witness :
  (v <- _getValueByKey (VArray [VObject [("qty", VNumber 1)]; VObject [("qty", VNumber 5)]])
                       "qty" ;;
   _evaluateCondition v (VObject [("gte", VNumber 3)]))
  = some (fun item => v <- _getValueByKey item "qty" ;;
                      _evaluateCondition v (VObject [("gte", VNumber 3)]))
         [VObject [("qty", VNumber 1)]; VObject [("qty", VNumber 5)]].
Proof.
  apply (broadcast_matches_some_item
           [VObject [("qty", VNumber 1)]; VObject [("qty", VNumber 5)]]
           [VNumber 1; VNumber 5] "qty" (VObject [("gte", VNumber 3)])).
  - reflexivity.
  - reflexivity.
  - repeat constructor.
Defined.

(** X19.  An array fails a condition exactly when each of its elements
    does; when each element gives an answer, it matches exactly when one of
    them does. *)
Theorem array_matches_existentially (items : list value) (condition : value) :
  (_evaluateCondition (VArray items) condition = Ok false
   <-> Forall (fun v => _evaluateCondition v condition = Ok false) items)
  /\ (Forall (fun v => exists b, _evaluateCondition v condition = Ok b) items ->
      (_evaluateCondition (VArray items) condition = Ok true
       <-> Exists (fun v => _evaluateCondition v condition = Ok true) items)).
Proof.
  rewrite _evaluateCondition_array. split.
  - apply some_false_iff.
  - apply some_true_iff.
Qed.

Lemma array_matches_existentially_witness :
  _evaluateCondition (VArray [VNumber 1; VNumber 5]) (VObject [("gte", VNumber 3)]) = Ok true
  <-> Exists (fun v => _evaluateCondition v (VObject [("gte", VNumber 3)]) = Ok true)
             [VNumber 1; VNumber 5].
Proof.
  apply (array_matches_existentially [VNumber 1; VNumber 5] (VObject [("gte", VNumber 3)])).
  repeat constructor; eexists; reflexivity.
Defined.

(** X20.  An object that is no array matches a condition none of whose
    entries is an array exactly when, for every entry of the condition, the
    property under its key matches its sub-condition. *)
Theorem object_matches_entrywise (cartValue : value) (entries : list (string * value)) :
  isObject cartValue = true ->
  isArray cartValue = false ->
  Forall (fun entry => isArray (snd entry) = false) entries ->
  (_evaluateCondition cartValue (VObject entries) = Ok true
   <-> Forall (fun entry =>
                 exists property,
                   get cartValue (fst entry) = Ok property
                   /\ _evaluateCondition property (snd entry) = Ok true) entries).
Proof.
  intros Hobject Harray Hentries.
  rewrite _evaluateCondition_object by assumption. cbn [Object_entries bind].
  rewrite every_true_iff. rewrite !Forall_forall in *. split.
  - intros H [key value] Hin. specialize (H _ Hin). specialize (Hentries _ Hin).
    cbn [fst snd] in *. rewrite Hentries in H. now apply bind_Ok_iff in H.
  - intros H [key value] Hin. specialize (H _ Hin). specialize (Hentries _ Hin).
    cbn [fst snd] in *. rewrite Hentries. now apply bind_Ok_iff.
Qed.

Lemma object_matches_entrywise_witness :
  _evaluateCondition (VObject [("age", VNumber 25)])
                     (VObject [("age", VObject [("gte", VNumber 18)])]) = Ok true
  <-> Forall (fun entry =>
                exists property,
                  get (VObject [("age", VNumber 25)]) (fst entry) = Ok property
                  /\ _evaluateCondition property (snd entry) = Ok true)
             [("age", VObject [("gte", VNumber 18)])].
Proof.
  apply (object_matches_entrywise (VObject [("age", VNumber 25)])
           [("age", VObject [("gte", VNumber 18)])]); try reflexivity.
  repeat constructor.
Defined.

(** X21.  Under an object, an array of sub-conditions is a disjunction:
    it has the outcome of trying its alternatives one by one, each as the
    sub-condition of the same key, when no alternative is itself an
    array. *)
Theorem array_of_subconditions_is_disjunction
    (cartValue : value) (key : string) (alternatives : list value) :
  isObject cartValue = true ->
  isArray cartValue = false ->
  Forall (fun alternative => isArray alternative = false) alternatives ->
  _evaluateCondition cartValue (VObject [(key, VArray alternatives)])
  = some (fun alternative =>
            _evaluateCondition cartValue (VObject [(key, alternative)])) alternatives.
Proof.
  intros Hobject Harray Halternatives.
  rewrite _evaluateCondition_object by assumption.
  cbn [Object_entries bind every isArray elements]. rewrite bind_verdict.
  apply some_ext. intros alternative Hin.
  rewrite Forall_forall in Halternatives. specialize (Halternatives _ Hin).
  rewrite _evaluateCondition_object by assumption.
  cbn [Object_entries bind every]. rewrite Halternatives. now rewrite bind_verdict.
Qed.

Lemma array_of_subconditions_is_disjunction_witness :
  _evaluateCondition (VObject [("color", VString "red")])
    (VObject [("color", VArray [VString "green"; VString "red"])])
  = some (fun alternative =>
            _evaluateCondition (VObject [("color", VString "red")])
                               (VObject [("color", alternative)]))
         [VString "green"; VString "red"].
Proof.
  apply (array_of_subconditions_is_disjunction (VObject [("color", VString "red")])
           "color" [VString "green"; VString "red"]); try reflexivity.
  repeat constructor.
Defined.

End Further.
